(** * cc-compiler: the session coordinator of [src/lib/Compiler.ts]

    A shallow embedding of the [Compiler] class: its constructor, [exec],
    the pty output handler, the debounce timers, the 500 ms container
    probe, [push], [stop], [resize] and [_cleanUp].

    JavaScript runs the callbacks of one session on a single thread, one
    at a time.  The session is therefore a record of the variables the
    closures of [exec] share, and every callback is a function from that
    record to the new record and the list of effects it performs, in
    program order.

    What the world feeds the session is an input of the model: the chunks
    the pty produces, the moment a pending timer fires, the turns of the
    interval timer and the text a probe returns.  Pending one-shot timers
    may fire in any order, and a probe may return at any time, so every
    schedule Node can produce is among the runs quantified over.  Calls on
    the pty ([write], [kill], [resize]) are recorded as effects and taken
    to return normally.  The catalog of langList.json is a parameter. *)

From Stdlib Require Import String Ascii List Bool ZArith Lia SpecFloat.
Import ListNotations.

Open Scope string_scope.

(** ** JavaScript strings *)

Module JS.

(** [s.includes(pat)] *)
Fixpoint includes (s pat : string) : bool :=
  if String.prefix pat s then true
  else match s with
       | EmptyString => false
       | String _ s' => includes s' pat
       end.

(** [s.indexOf(pat)], -1 when [pat] does not occur. *)
Fixpoint indexOf (s pat : string) : Z :=
  if String.prefix pat s then 0%Z
  else match s with
       | EmptyString => (-1)%Z
       | String _ s' =>
           let i := indexOf s' pat in
           if (i <? 0)%Z then (-1)%Z else (i + 1)%Z
       end.

(** [s.split(c)] for a one-character separator. *)
Fixpoint split (c : ascii) (s : string) : list string :=
  match s with
  | EmptyString => [EmptyString]
  | String a s' =>
      if Ascii.eqb a c then EmptyString :: split c s'
      else match split c s' with
           | [] => [String a EmptyString]
           | h :: t => String a h :: t
           end
  end.

(** [l.pop()], as far as the array it leaves behind is concerned. *)
Definition pop (l : list string) : list string := removelast l.

(** [l.join(sep)] *)
Definition join (sep : string) (l : list string) : string :=
  String.concat sep l.

(** The replacement text of [String.prototype.replace] for a string
    pattern (ECMAScript GetSubstitution without capture groups): [$$] is
    a dollar sign, [$&] the match, [$`] the text before it, [$'] the text
    after it; every other character stands for itself. *)
Fixpoint GetSubstitution (matched before after r : string) : string :=
  match r with
  | EmptyString => EmptyString
  | String a rest =>
      if Ascii.eqb a "$" then
        match rest with
        | EmptyString => String a EmptyString
        | String c r' =>
            if Ascii.eqb c "$" then String "$" (GetSubstitution matched before after r')
            else if Ascii.eqb c "&" then matched ++ GetSubstitution matched before after r'
            else if Ascii.eqb c "`" then before ++ GetSubstitution matched before after r'
            else if Ascii.eqb c "'" then after ++ GetSubstitution matched before after r'
            else String a (GetSubstitution matched before after rest)
        end
      else String a (GetSubstitution matched before after rest)
  end.

(** The text of [s] from position [n] on. *)
Fixpoint drop (n : nat) (s : string) : string :=
  match n, s with
  | O, _ => s
  | S n', String _ s' => drop n' s'
  | S _, EmptyString => EmptyString
  end.

(** [s.replace(pat, r)] for a string pattern: the first occurrence only. *)
Definition replace (s pat r : string) : string :=
  let i := indexOf s pat in
  if (i <? 0)%Z then s
  else
    let p := Z.to_nat i in
    let before := String.substring 0 p s in
    let after := drop (p + String.length pat) s in
    before ++ GetSubstitution pat before after r ++ after.

(** [String.fromCharCode(n)] for a code below 256. *)
Definition fromCharCode (n : nat) : string :=
  String (ascii_of_nat n) EmptyString.

(** What a template literal prints for a value that may be [undefined]. *)
Definition template (v : option string) : string :=
  match v with
  | Some s => s
  | None => "undefined"
  end.

(** Truthiness of a value that is a string or [undefined]. *)
Definition truthy_str (v : option string) : bool :=
  match v with
  | Some EmptyString => false
  | Some _ => true
  | None => false
  end.

(** *** Untyped values, as a caller written in JavaScript can pass them *)

Inductive Value : Type :=
| Undefined
| Null
| Boolean (b : bool)
| Number (x : spec_float)
| BigInt (n : Z)
| Str (s : string)
| Symbol (id : nat)
| Function (id : nat)
| Object (id : nat).

(** [typeof v] *)
Definition typeof (v : Value) : string :=
  match v with
  | Undefined => "undefined"
  | Null => "object"
  | Boolean _ => "boolean"
  | Number _ => "number"
  | BigInt _ => "bigint"
  | Str _ => "string"
  | Symbol _ => "symbol"
  | Function _ => "function"
  | Object _ => "object"
  end.

(** Numbers are IEEE 754 doubles, in the representation of [SpecFloat]:
    signed zeros and infinities, NaN, and [(-1)^s * m * 2^e]. *)
Definition zero : spec_float := S754_zero false.

(** The double 1: mantissa 2^52, exponent -52. *)
Definition one : spec_float := S754_finite false 4503599627370496 (-52).

Definition is_nan (x : spec_float) : bool :=
  match x with
  | S754_nan => true
  | _ => false
  end.

(** ToBoolean *)
Definition truthy (v : Value) : bool :=
  match v with
  | Undefined | Null => false
  | Boolean b => b
  | Number x => negb (SFeqb x zero || is_nan x)
  | BigInt n => negb (n =? 0)%Z
  | Str s => negb (String.eqb s EmptyString)
  | Symbol _ | Function _ | Object _ => true
  end.

(** [v !== 0] *)
Definition strict_neq_zero (v : Value) : bool :=
  match v with
  | Number x => negb (SFeqb x zero)
  | _ => true
  end.

(** The array index a number denotes in [a[x]]: the number has to be a
    non-negative integer (either zero counts). *)
Definition array_index (x : spec_float) : option nat :=
  match x with
  | S754_zero _ => Some O
  | S754_finite false m e =>
      if (0 <=? e)%Z then Some (Z.to_nat (Z.pos m * 2 ^ e))
      else if (Z.pos m mod 2 ^ (- e) =? 0)%Z
           then Some (Z.to_nat (Z.pos m / 2 ^ (- e)))
           else None
  | _ => None
  end.

End JS.


(** ** Effects *)

(** The one-shot timers of a session: the two debounced deliveries of
    [exec] (100 ms) and the container removal of [stop] (200 ms). *)
Inductive Timer : Type :=
| SendStep1
| SendStep2
| RemoveContainer.

(** What the emitter sends to its listeners. *)
Inductive Emitted : Type :=
| Inc (out : string)
| Launched
| Done (out : string) (timedOut : bool).

(** What a callback does to the world outside the session record. *)
Inductive Effect : Type :=
| Emit (ev : Emitted)
| ExecCmd (cmd : string)
| Spawn (file : string) (args : list string) (name : string) (cols rows : Z)
| PtyWrite (data : string)
| PtyKill (signal : string)
| PtyResize (cols rows : Z)
| SetTimeout (t : Timer) (ms : Z)
| SetInterval (ms : Z)
| ClearInterval.

(** ** Configuration *)

(** The options object as the constructor receives it.  The four required
    fields are untyped: a missing field reads as [JS.Undefined].  The
    folder name is not inspected by the checks and keeps its declared
    type, a string or nothing. *)
Record RawOptions : Type := {
  raw_langNum : JS.Value;
  raw_mainFile : JS.Value;
  raw_pathToFiles : JS.Value;
  raw_containerName : JS.Value;
  raw_folderName : option string
}.

(** [CompilerOptions], with the types the checks of the constructor
    establish. *)
Record CompilerOptions : Type := {
  langNum : spec_float;
  mainFile : string;
  pathToFiles : string;
  containerName : string;
  folderName : option string
}.

(** The fields a [Compiler] has once constructed; [process] and
    [checkInterval] stay undefined until [exec] and live in [Session]. *)
Record Compiler : Type := {
  opts : CompilerOptions;
  this_folderName : string
}.

(** The number and the string a checked field holds. *)
Definition num_of (v : JS.Value) : spec_float :=
  match v with
  | JS.Number x => x
  | _ => S754_nan
  end.

Definition str_of (v : JS.Value) : string :=
  match v with
  | JS.Str s => s
  | _ => EmptyString
  end.

(** [!v || typeof v !== "string"] *)
Definition not_a_string (v : JS.Value) : bool :=
  negb (JS.truthy v) || negb (String.eqb (JS.typeof v) "string").

(** [(!v && v !== 0) || typeof v !== "number"] *)
Definition not_a_number (v : JS.Value) : bool :=
  (negb (JS.truthy v) && JS.strict_neq_zero v)
  || negb (String.eqb (JS.typeof v) "number").

(** [opts.folderName || "code"] *)
Definition folder_or_code (f : option string) : string :=
  if JS.truthy_str f then JS.template f else "code".

(** The constructor.  It returns what it did to the outside world, which
    is nothing on any path (no [exec], no [spawn], no timer), and either
    the string it throws ([inl]) or the object ([inr]). *)
Definition constructor (o : RawOptions) : list Effect * (string + Compiler) :=
  if not_a_number (raw_langNum o) then
    ([], inl "Required param 'langNum' missing or invalid.")
  else if not_a_string (raw_mainFile o) then
    ([], inl "Required param 'mainFile' missing or invalid.")
  else if not_a_string (raw_pathToFiles o) then
    ([], inl "Required param 'pathToFiles' missing or invalid.")
  else if not_a_string (raw_containerName o) then
    ([], inl "Required param 'containerName' missing or invalid.")
  else
    ([], inr {| opts := {| langNum := num_of (raw_langNum o);
                           mainFile := str_of (raw_mainFile o);
                           pathToFiles := str_of (raw_pathToFiles o);
                           containerName := str_of (raw_containerName o);
                           folderName := raw_folderName o |};
                this_folderName := folder_or_code (raw_folderName o) |}).

(** ** Session state *)

Record IPty : Type := {
  pty_cols : Z;
  pty_rows : Z
}.

(** The interval timer behind [checkInterval]: cleared or still ticking. *)
Inductive Interval : Type :=
| Ticking
| Cleared.

(** The object after [exec]: its fields, the variables the closures of
    [exec] share, and the one-shot timers that have not fired yet. *)
Record Session : Type := {
  this : Compiler;
  process : option IPty;
  checkInterval : option Interval;
  step1 : string;
  step2 : string;
  sentStep1 : bool;
  sentStep2 : bool;
  receivedFinalArrow : bool;
  isLaunched : bool;
  sentDone : bool;
  timeouts : list Timer
}.

Definition ESC : string := String (ascii_of_nat 27) EmptyString.
Definition CR : string := String (ascii_of_nat 13) EmptyString.

(** The prompt marker. *)
Definition arrow : string := ESC ++ "[1;3;31m>> " ++ ESC ++ "[0m".

Definition with_sentStep1 (s : Session) (b : bool) : Session :=
  {| this := this s; process := process s; checkInterval := checkInterval s;
     step1 := step1 s; step2 := step2 s;
     sentStep1 := b; sentStep2 := sentStep2 s;
     receivedFinalArrow := receivedFinalArrow s;
     isLaunched := isLaunched s; sentDone := sentDone s;
     timeouts := timeouts s |}.

Definition with_sentStep2 (s : Session) (b : bool) : Session :=
  {| this := this s; process := process s; checkInterval := checkInterval s;
     step1 := step1 s; step2 := step2 s;
     sentStep1 := sentStep1 s; sentStep2 := b;
     receivedFinalArrow := receivedFinalArrow s;
     isLaunched := isLaunched s; sentDone := sentDone s;
     timeouts := timeouts s |}.

Definition with_isLaunched (s : Session) (b : bool) : Session :=
  {| this := this s; process := process s; checkInterval := checkInterval s;
     step1 := step1 s; step2 := step2 s;
     sentStep1 := sentStep1 s; sentStep2 := sentStep2 s;
     receivedFinalArrow := receivedFinalArrow s;
     isLaunched := b; sentDone := sentDone s;
     timeouts := timeouts s |}.

Definition with_sentDone (s : Session) (b : bool) : Session :=
  {| this := this s; process := process s; checkInterval := checkInterval s;
     step1 := step1 s; step2 := step2 s;
     sentStep1 := sentStep1 s; sentStep2 := sentStep2 s;
     receivedFinalArrow := receivedFinalArrow s;
     isLaunched := isLaunched s; sentDone := b;
     timeouts := timeouts s |}.

Definition with_timeouts (s : Session) (l : list Timer) : Session :=
  {| this := this s; process := process s; checkInterval := checkInterval s;
     step1 := step1 s; step2 := step2 s;
     sentStep1 := sentStep1 s; sentStep2 := sentStep2 s;
     receivedFinalArrow := receivedFinalArrow s;
     isLaunched := isLaunched s; sentDone := sentDone s;
     timeouts := l |}.

Definition with_checkInterval (s : Session) (i : option Interval) : Session :=
  {| this := this s; process := process s; checkInterval := i;
     step1 := step1 s; step2 := step2 s;
     sentStep1 := sentStep1 s; sentStep2 := sentStep2 s;
     receivedFinalArrow := receivedFinalArrow s;
     isLaunched := isLaunched s; sentDone := sentDone s;
     timeouts := timeouts s |}.

Definition with_process (s : Session) (p : option IPty) : Session :=
  {| this := this s; process := p; checkInterval := checkInterval s;
     step1 := step1 s; step2 := step2 s;
     sentStep1 := sentStep1 s; sentStep2 := sentStep2 s;
     receivedFinalArrow := receivedFinalArrow s;
     isLaunched := isLaunched s; sentDone := sentDone s;
     timeouts := timeouts s |}.

(** [setTimeout(f, ms)]: the timer is pending from now on. *)
Definition setTimeout (s : Session) (t : Timer) (ms : Z)
  : Session * list Effect :=
  (with_timeouts s (timeouts s ++ [t])%list, [SetTimeout t ms]).

(** [this.process?.write(data)]; the write itself is taken to return
    normally. *)
Definition process_write (s : Session) (data : string) : list Effect :=
  match process s with
  | Some _ => [PtyWrite data]
  | None => []
  end.

(** [this.process?.kill(signal)] *)
Definition process_kill (s : Session) (signal : string) : list Effect :=
  match process s with
  | Some _ => [PtyKill signal]
  | None => []
  end.

(** The command of the container removal. *)
Definition docker_rm (s : Session) : string :=
  "docker rm -f " ++ containerName (opts (this s)).

(** ** [exec] *)

(** [compilers[langNum]]; [compilers] is the catalog of langList.json, a
    parameter of the model. *)
Definition lookup_runner (compilers : list (list string)) (x : spec_float)
  : option (list string) :=
  match JS.array_index x with
  | Some i => nth_error compilers i
  | None => None
  end.

(** The main file name without its last extension. *)
Definition fileWithoutExt (main : string) : string :=
  JS.join "." (JS.pop (JS.split "." main)).

Definition make_step1 (runner : list string) (main : string) : string :=
  JS.template (nth_error runner 0) ++ " " ++ main ++ CR.

Definition make_step2 (runner : list string) (main : string) : string :=
  if JS.truthy_str (nth_error runner 1)
  then JS.replace (JS.template (nth_error runner 1)) "{}" (fileWithoutExt main) ++ CR
  else EmptyString.

(** The argument list of [docker run]. *)
Definition docker_args (o : CompilerOptions) : list string :=
  [ "run"; "--rm"; "--name"; containerName o; "-e"; "TERM=xterm-256color";
    "--cpus=0.25"; "--memory=200m"; "-itv";
    pathToFiles o ++ ":/usercode/" ++ JS.template (folderName o);
    "--workdir"; "/usercode/" ++ JS.template (folderName o);
    "cc-compiler"; "/bin/bash" ].

(** The effects of [exec] up to and including the spawn. *)
Definition launch (o : CompilerOptions) : list Effect :=
  [ ExecCmd ("chmod -R 777 " ++ pathToFiles o
             ++ ";chown -R cc-user:cc-user /usercode");
    Spawn "docker" (docker_args o) "xterm-256color" 32 200 ].

(** [exec()]: the effects it performs and the session it leaves behind.
    When the catalog has no entry at [langNum], reading [runner[0]] throws
    after the spawn and before any handler or timer is installed: there is
    no session then. *)
Definition exec (compilers : list (list string)) (c : Compiler)
  : list Effect * option Session :=
  match lookup_runner compilers (langNum (opts c)) with
  | None => (launch (opts c), None)
  | Some runner =>
      let s1 := make_step1 runner (mainFile (opts c)) in
      let s2 := make_step2 runner (mainFile (opts c)) in
      ((launch (opts c) ++ [SetInterval 500])%list,
       Some {| this := c;
               process := Some {| pty_cols := 32; pty_rows := 200 |};
               checkInterval := Some Ticking;
               step1 := s1;
               step2 := s2;
               sentStep1 := false;
               sentStep2 := String.eqb s2 EmptyString;
               receivedFinalArrow := false;
               isLaunched := false;
               sentDone := false;
               timeouts := [] |})
  end.

(** ** The callbacks *)

(** [String.fromCharCode(127)] *)
Definition DEL : string := JS.fromCharCode 127.

(** The handler [exec] registers with [process.onData]. *)
Definition onData (s : Session) (e : string) : Session * list Effect :=
  let inc := Emit (Inc e) in
  if JS.includes e arrow && sentStep1 s && sentStep2 s then
    (s, [inc; ExecCmd (docker_rm s)])
  else if negb (sentStep1 s) && String.eqb e arrow then
    let (s', fx) := setTimeout s SendStep1 100 in (s', inc :: fx)
  else if negb (sentStep2 s) && sentStep1 s && JS.includes e arrow then
    let (s', fx) := setTimeout s SendStep2 100 in (s', inc :: fx)
  else if (negb (sentStep2 s) && sentStep1 s && negb (JS.includes e arrow))
          || receivedFinalArrow s then
    (s, inc :: process_write s DEL)
  else
    (s, [inc]).

(** The body of a one-shot timer, run when it fires. *)
Definition fire (s : Session) (t : Timer) : Session * list Effect :=
  match t with
  | SendStep1 =>
      if sentStep1 s then (s, [])
      else let s' := with_sentStep1 s true in (s', process_write s' (step1 s'))
  | SendStep2 =>
      if sentStep2 s then (s, [])
      else let s' := with_sentStep2 s true in (s', process_write s' (step2 s'))
  | RemoveContainer => (s, [ExecCmd (docker_rm s)])
  end.

(** [_cleanUp()] *)
Definition _cleanUp (s : Session) : Session * list Effect :=
  match checkInterval s with
  | Some _ =>
      let s' := with_checkInterval s (Some Cleared) in
      (s', ClearInterval :: process_kill s' "1")
  | None => (s, process_kill s "1")
  end.

(** The callback of the probe [docker ps | grep <containerName>], given
    the standard output [out] of the probe. *)
Definition onProbe (s : Session) (out : string) : Session * list Effect :=
  if negb (String.eqb out EmptyString) && negb (isLaunched s) then
    (with_isLaunched s true, [Emit Launched])
  else
    let timedOut := (JS.indexOf out "minute" >? -1)%Z in
    if ((String.eqb out EmptyString && isLaunched s) || timedOut)
       && negb (sentDone s) then
      let (s', fx) := _cleanUp (with_sentDone s true) in
      (s', Emit (Done EmptyString timedOut) :: fx)
    else
      (s, []).

(** One turn of the interval timer: it starts a probe, unless the timer
    was cleared. *)
Definition onTick (s : Session) : Session * list Effect :=
  match checkInterval s with
  | Some Ticking =>
      (s, [ExecCmd ("docker ps | grep " ++ containerName (opts (this s)))])
  | _ => (s, [])
  end.

(** [push(text)] *)
Definition push (s : Session) (text : string) : Session * list Effect :=
  (s, process_write s text).

(** [stop()] *)
Definition stop (s : Session) : Session * list Effect :=
  let (s', fx) := setTimeout s RemoveContainer 200 in
  (s', (process_kill s "1" ++ fx)%list).

(** [resize({cols, rows})] *)
Definition resize (s : Session) (cols rows : Z) : Session * list Effect :=
  match process s with
  | Some _ =>
      (with_process s (Some {| pty_cols := cols; pty_rows := rows |}),
       [PtyResize cols rows])
  | None => (s, [])
  end.

(** ** The event loop *)

(** What can happen to a session: a chunk of pty output, the [n]-th
    pending one-shot timer firing, a turn of the interval timer, a probe
    returning its output, and the calls of the public methods. *)
Inductive Input : Type :=
| Data (e : string)
| Timeout (n : nat)
| Tick
| Probe (out : string)
| Push (text : string)
| Stop
| Resize (cols rows : Z).

Definition remove_nth {A : Type} (n : nat) (l : list A) : list A :=
  (firstn n l ++ skipn (S n) l)%list.

Definition step (s : Session) (i : Input) : Session * list Effect :=
  match i with
  | Data e => onData s e
  | Timeout n =>
      match nth_error (timeouts s) n with
      | Some t => fire (with_timeouts s (remove_nth n (timeouts s))) t
      | None => (s, [])
      end
  | Tick => onTick s
  | Probe out => onProbe s out
  | Push text => push s text
  | Stop => stop s
  | Resize cols rows => resize s cols rows
  end.

(** The session after a sequence of inputs. *)
Fixpoint final (s : Session) (tr : list Input) : Session :=
  match tr with
  | [] => s
  | i :: tr' => final (fst (step s i)) tr'
  end.

(** Everything the session did along a sequence of inputs, in order. *)
Fixpoint effects (s : Session) (tr : list Input) : list Effect :=
  match tr with
  | [] => []
  | i :: tr' => (snd (step s i) ++ effects (fst (step s i)) tr')%list
  end.

(** A session [exec] can leave behind. *)
Definition started (compilers : list (list string)) (c : Compiler)
  (s : Session) : Prop :=
  snd (exec compilers c) = Some s.

(** The texts written to the pty, in order. *)
Fixpoint pty_writes (fx : list Effect) : list string :=
  match fx with
  | [] => []
  | PtyWrite d :: fx' => d :: pty_writes fx'
  | _ :: fx' => pty_writes fx'
  end.

(** The events emitted, in order. *)
Fixpoint emitted (fx : list Effect) : list Emitted :=
  match fx with
  | [] => []
  | Emit ev :: fx' => ev :: emitted fx'
  | _ :: fx' => emitted fx'
  end.

Definition is_done (ev : Emitted) : bool :=
  match ev with
  | Done _ _ => true
  | _ => false
  end.

Definition is_launched (ev : Emitted) : bool :=
  match ev with
  | Launched => true
  | _ => false
  end.

(** How often [done] and [launched] were emitted. *)
Definition count_done (fx : list Effect) : nat :=
  length (filter is_done (emitted fx)).

Definition count_launched (fx : list Effect) : nat :=
  length (filter is_launched (emitted fx)).

(** ** Vocabulary of the properties *)

(** The order of the two deliveries: a pending step2 timer and a recorded
    step2 both presuppose a recorded step1, unless there is no step2. *)
Definition sequenced (s : Session) : Prop :=
  (In SendStep2 (timeouts s) -> sentStep1 s = true)
  /\ (sentStep2 s = true -> sentStep1 s = true \/ step2 s = EmptyString).

(** The handles [exec] installs are there, and the final-arrow flag is
    as [exec] initialised it. *)
Definition wired (s : Session) : Prop :=
  process s <> None
  /\ checkInterval s <> None
  /\ receivedFinalArrow s = false.

(** The argument list of the first spawn in a log. *)
Fixpoint spawn_args (fx : list Effect) : option (list string) :=
  match fx with
  | [] => None
  | Spawn _ args _ _ _ :: _ => Some args
  | _ :: fx' => spawn_args fx'
  end.

(** The bind mount (the argument after [-itv]) and the working directory
    (the argument after [--workdir]) of a [docker run] argument list. *)
Definition mount_arg (args : list string) : option string := nth_error args 9.
Definition workdir_arg (args : list string) : option string := nth_error args 11.

(** The text of the error for a field. *)
Definition error_for (field : string) : string :=
  "Required param '" ++ field ++ "' missing or invalid.".

(** A value of type number. *)
Definition is_number (v : JS.Value) : bool :=
  match v with
  | JS.Number _ => true
  | _ => false
  end.

(** A value that is a string and not the empty one. *)
Definition nonempty_string (v : JS.Value) : bool :=
  match v with
  | JS.Str s => negb (String.eqb s EmptyString)
  | _ => false
  end.

(** A [langNum] that is missing, not of type number, or NaN. *)
Definition bad_langNum (v : JS.Value) : bool :=
  match v with
  | JS.Number x => JS.is_nan x
  | _ => true
  end.

(** The field named [field] of [o] is missing or invalid. *)
Definition offending (o : RawOptions) (field : string) : Prop :=
  (field = "langNum" /\ bad_langNum (raw_langNum o) = true)
  \/ (field = "mainFile" /\ nonempty_string (raw_mainFile o) = false)
  \/ (field = "pathToFiles" /\ nonempty_string (raw_pathToFiles o) = false)
  \/ (field = "containerName" /\ nonempty_string (raw_containerName o) = false).

(** The chunks of pty output among the inputs, in order. *)
Fixpoint chunks (tr : list Input) : list string :=
  match tr with
  | [] => []
  | Data e :: tr' => e :: chunks tr'
  | _ :: tr' => chunks tr'
  end.

(** The payloads of the [inc] events, in order. *)
Fixpoint incs (evs : list Emitted) : list string :=
  match evs with
  | [] => []
  | Inc out :: evs' => out :: incs evs'
  | _ :: evs' => incs evs'
  end.



(** Inputs that are not a call of [push], and sequences without one. *)
Definition not_push (i : Input) : Prop := forall text, i <> Push text.

Definition no_push (tr : list Input) : Prop := Forall not_push tr.

(** Sequences without a call of [stop]. *)
Definition no_stop (tr : list Input) : Prop := Forall (fun i => i <> Stop) tr.

(** The texts written to the pty other than the erase character. *)
Definition commands (fx : list Effect) : list string :=
  filter (fun d => negb (String.eqb d DEL)) (pty_writes fx).

(** The commands the flags of a session record as delivered. *)
Definition delivered (s : Session) : list string :=
  if sentStep1 s then
    step1 s :: (if sentStep2 s && negb (String.eqb (step2 s) EmptyString)
                then [step2 s] else [])
  else [].

(** A session without a step2 command has it recorded as sent. *)
Definition present (s : Session) : Prop :=
  step2 s = EmptyString -> sentStep2 s = true.

(** The command of the probe. *)
Definition probe_cmd (s : Session) : string :=
  "docker ps | grep " ++ containerName (opts (this s)).

(** The monitor's flags and the interval agree: [done] needs [launched],
    and the interval is cleared exactly when [done] has been sent. *)
Definition monitored (s : Session) : Prop :=
  (sentDone s = true -> isLaunched s = true)
  /\ (checkInterval s = Some (if sentDone s then Cleared else Ticking)).

(** No container removal of [stop] is pending. *)
Definition unstopped (s : Session) : Prop :=
  ~ In RemoveContainer (timeouts s).




(** What holds of the sequencer in every state a session reaches. *)
Definition disciplined (s : Session) : Prop :=
  sequenced s /\ present s
  /\ receivedFinalArrow s = false
  /\ step1 s <> DEL /\ step2 s <> DEL.

(** ** Proof automation *)

Ltac case_step :=
  repeat match goal with
    | |- context [if ?b then _ else _] => destruct b eqn:?
    | |- context [match ?x with _ => _ end] => destruct x eqn:?
    end.

Ltac open_step s i :=
  destruct i; unfold step, onData, fire, onProbe, onTick, push, stop, resize,
    _cleanUp, setTimeout, process_write, process_kill; simpl.

(** ** Sample configurations *)

Definition sample_catalog : list (list string) :=
  [ ["python3"]; ["gcc main.c -o main"; "./{}"] ].

Definition gcc_raw : RawOptions :=
  {| raw_langNum := JS.Number JS.one;
     raw_mainFile := JS.Str "main.c";
     raw_pathToFiles := JS.Str "/tmp/job";
     raw_containerName := JS.Str "box";
     raw_folderName := None |}.

Definition gcc_opts : CompilerOptions :=
  {| langNum := JS.one; mainFile := "main.c"; pathToFiles := "/tmp/job";
     containerName := "box"; folderName := None |}.

Definition gcc_compiler : Compiler :=
  {| opts := gcc_opts; this_folderName := "code" |}.

Definition py_raw : RawOptions :=
  {| raw_langNum := JS.Number JS.zero;
     raw_mainFile := JS.Str "script.py";
     raw_pathToFiles := JS.Str "/tmp/job";
     raw_containerName := JS.Str "box";
     raw_folderName := Some "work" |}.

Definition py_compiler : Compiler :=
  {| opts := {| langNum := JS.zero; mainFile := "script.py";
                pathToFiles := "/tmp/job"; containerName := "box";
                folderName := Some "work" |};
     this_folderName := "work" |}.

Definition bad_raw : RawOptions :=
  {| raw_langNum := JS.Number JS.zero;
     raw_mainFile := JS.Str "main.c";
     raw_pathToFiles := JS.Undefined;
     raw_containerName := JS.Str "";
     raw_folderName := None |}.

(** Options with the double -1 as [langNum] and an empty folder name. *)
Definition minus_one_raw : RawOptions :=
  {| raw_langNum := JS.Number (S754_finite true 4503599627370496 (-52));
     raw_mainFile := JS.Str "main.c";
     raw_pathToFiles := JS.Str "/tmp/job";
     raw_containerName := JS.Str "box";
     raw_folderName := Some "" |}.

(** The session [exec] leaves behind for [gcc_compiler]. *)
Definition gcc_session : Session :=
  {| this := gcc_compiler;
     process := Some {| pty_cols := 32; pty_rows := 200 |};
     checkInterval := Some Ticking;
     step1 := "gcc main.c -o main main.c" ++ CR;
     step2 := "./main" ++ CR;
     sentStep1 := false;
     sentStep2 := false;
     receivedFinalArrow := false;
     isLaunched := false;
     sentDone := false;
     timeouts := [] |}.

(** ** Basic facts about logs and runs *)

Lemma gcc_session_started : started sample_catalog gcc_compiler gcc_session.
Proof. reflexivity. Qed.


Lemma emitted_app (a b : list Effect) :
  emitted (a ++ b) = (emitted a ++ emitted b)%list.
Proof.
  induction a as [|x a IH]; simpl; [reflexivity|].
  destruct x; simpl; rewrite IH; reflexivity.
Qed.

Lemma pty_writes_app (a b : list Effect) :
  pty_writes (a ++ b) = (pty_writes a ++ pty_writes b)%list.
Proof.
  induction a as [|x a IH]; simpl; [reflexivity|].
  destruct x; simpl; rewrite IH; reflexivity.
Qed.

Lemma count_done_app (a b : list Effect) :
  count_done (a ++ b) = count_done a + count_done b.
Proof.
  unfold count_done. rewrite emitted_app, filter_app, length_app. reflexivity.
Qed.

Lemma count_launched_app (a b : list Effect) :
  count_launched (a ++ b) = count_launched a + count_launched b.
Proof.
  unfold count_launched. rewrite emitted_app, filter_app, length_app. reflexivity.
Qed.

Lemma final_app (s : Session) (a b : list Input) :
  final s (a ++ b) = final (final s a) b.
Proof.
  revert s. induction a as [|i a IH]; intros s; simpl; [reflexivity|].
  apply IH.
Qed.

Lemma effects_app (s : Session) (a b : list Input) :
  effects s (a ++ b) = (effects s a ++ effects (final s a) b)%list.
Proof.
  revert s. induction a as [|i a IH]; intros s; simpl; [reflexivity|].
  rewrite IH, app_assoc. reflexivity.
Qed.

Lemma In_remove_nth {A : Type} (x : A) (n : nat) (l : list A) :
  In x (remove_nth n l) -> In x l.
Proof.
  unfold remove_nth. intros H. apply in_app_or in H. destruct H as [H|H].
  - rewrite <- (firstn_skipn n l). apply in_or_app. left. exact H.
  - rewrite <- (firstn_skipn (S n) l). apply in_or_app. right. exact H.
Qed.

Lemma append_cancel_l (p a b : string) : p ++ a = p ++ b -> a = b.
Proof.
  induction p as [|x p IH]; simpl; intros H; [exact H|].
  injection H as H. auto.
Qed.

(** ** One step at a time *)

(** The command texts and the configuration never change. *)
Lemma step_constants (s : Session) (i : Input) :
  step1 (fst (step s i)) = step1 s
  /\ step2 (fst (step s i)) = step2 s
  /\ this (fst (step s i)) = this s.
Proof.
  open_step s i; case_step; simpl; auto.
Qed.

(** No statement of the program assigns [receivedFinalArrow]. *)
Lemma step_receivedFinalArrow (s : Session) (i : Input) :
  receivedFinalArrow (fst (step s i)) = receivedFinalArrow s.
Proof.
  open_step s i; case_step; simpl; auto.
Qed.

(** The four flags only ever go from false to true. *)
Lemma step_flags_mono (s : Session) (i : Input) :
  (sentStep1 s = true -> sentStep1 (fst (step s i)) = true)
  /\ (sentStep2 s = true -> sentStep2 (fst (step s i)) = true)
  /\ (isLaunched s = true -> isLaunched (fst (step s i)) = true)
  /\ (sentDone s = true -> sentDone (fst (step s i)) = true).
Proof.
  open_step s i; case_step; simpl; repeat split; intros; congruence.
Qed.

(** The pty handle and the interval handle, once set, stay set. *)
Lemma step_handles (s : Session) (i : Input) :
  (process s <> None -> process (fst (step s i)) <> None)
  /\ (checkInterval s <> None -> checkInterval (fst (step s i)) <> None).
Proof.
  open_step s i; case_step; simpl; split; intros; congruence.
Qed.

(** ** Invariants of a running session *)

Lemma started_inv (compilers : list (list string)) (c : Compiler) (s : Session) :
  started compilers c s -> sequenced s /\ wired s.
Proof.
  unfold started, exec. intros H.
  destruct (lookup_runner compilers (langNum (opts c))) as [runner|];
    simpl in H; [|discriminate].
  injection H as <-. unfold sequenced, wired; simpl.
  repeat split; try discriminate.
  - intros [].
  - intros E. right. apply String.eqb_eq. exact E.
Qed.

Lemma step_sequenced (s : Session) (i : Input) :
  sequenced s -> sequenced (fst (step s i)).
Proof.
  unfold sequenced. intros [Ht Hs].
  destruct i; unfold step.
  - (* Data *)
    unfold onData, setTimeout, process_write.
    destruct (JS.includes e arrow && sentStep1 s && sentStep2 s) eqn:E1;
      [simpl; auto|].
    destruct (negb (sentStep1 s) && String.eqb e arrow) eqn:E2.
    { simpl. split; [|exact Hs]. intros H. apply in_app_or in H.
      destruct H as [H|[H|[]]]; [auto|discriminate]. }
    destruct (negb (sentStep2 s) && sentStep1 s && JS.includes e arrow) eqn:E3.
    { simpl. split; [|exact Hs]. intros _.
      apply andb_prop in E3. destruct E3 as [E3 _].
      apply andb_prop in E3. tauto. }
    destruct ((negb (sentStep2 s) && sentStep1 s && negb (JS.includes e arrow))
              || receivedFinalArrow s); simpl; auto.
  - (* Timeout *)
    destruct (nth_error (timeouts s) n) as [t|] eqn:En; [|simpl; auto].
    assert (Hin : In t (timeouts s)) by (eapply nth_error_In; eauto).
    assert (Hrm : In SendStep2 (remove_nth n (timeouts s)) -> sentStep1 s = true)
      by (intros H; apply Ht; eapply In_remove_nth; eauto).
    destruct t; unfold fire; simpl.
    + destruct (sentStep1 s) eqn:E1; simpl; split; intros; auto.
    + assert (E1 : sentStep1 s = true) by auto.
      destruct (sentStep2 s) eqn:E2; simpl; split; intros; auto.
    + split; auto.
  - (* Tick *)
    unfold onTick. destruct (checkInterval s) as [[|]|]; simpl; auto.
  - (* Probe *)
    unfold onProbe, _cleanUp.
    destruct (negb (String.eqb out EmptyString) && negb (isLaunched s));
      [simpl; auto|].
    destruct ((String.eqb out EmptyString && isLaunched s
               || (JS.indexOf out "minute" >? -1)%Z) && negb (sentDone s));
      [|simpl; auto].
    simpl. destruct (checkInterval s); simpl; auto.
  - (* Push *)
    simpl; auto.
  - (* Stop *)
    unfold stop, setTimeout; simpl. split; [|exact Hs].
    intros H. apply in_app_or in H. destruct H as [H|[H|[]]]; [auto|discriminate].
  - (* Resize *)
    unfold resize. destruct (process s); simpl; auto.
Qed.

Lemma step_wired (s : Session) (i : Input) :
  wired s -> wired (fst (step s i)).
Proof.
  unfold wired. intros (Hp & Hc & Hr).
  destruct (step_handles s i) as [H1 H2].
  rewrite step_receivedFinalArrow. auto.
Qed.

Lemma final_sequenced (s : Session) (tr : list Input) :
  sequenced s -> sequenced (final s tr).
Proof.
  revert s. induction tr as [|i tr IH]; intros s H; simpl; [exact H|].
  apply IH, step_sequenced, H.
Qed.

Lemma final_wired (s : Session) (tr : list Input) :
  wired s -> wired (final s tr).
Proof.
  revert s. induction tr as [|i tr IH]; intros s H; simpl; [exact H|].
  apply IH, step_wired, H.
Qed.

Lemma final_constants (s : Session) (tr : list Input) :
  step1 (final s tr) = step1 s
  /\ step2 (final s tr) = step2 s
  /\ this (final s tr) = this s.
Proof.
  revert s. induction tr as [|i tr IH]; intros s; simpl; [auto|].
  destruct (IH (fst (step s i))) as (A & B & C).
  destruct (step_constants s i) as (A' & B' & C').
  repeat split; congruence.
Qed.

Lemma final_flags_mono (s : Session) (tr : list Input) :
  (sentStep1 s = true -> sentStep1 (final s tr) = true)
  /\ (sentStep2 s = true -> sentStep2 (final s tr) = true)
  /\ (isLaunched s = true -> isLaunched (final s tr) = true)
  /\ (sentDone s = true -> sentDone (final s tr) = true).
Proof.
  revert s. induction tr as [|i tr IH]; intros s; simpl; [auto|].
  destruct (IH (fst (step s i))) as (A & B & C & D).
  destruct (step_flags_mono s i) as (A' & B' & C' & D').
  repeat split; auto.
Qed.

(** ** The launcher *)

(** With a folder name, the mount target and the working directory are
    [/usercode/<folderName>]. *)
Lemma exec_mount_supplied (compilers : list (list string)) (c : Compiler)
  (f : string) :
  folderName (opts c) = Some f ->
  exists args,
    spawn_args (fst (exec compilers c)) = Some args
    /\ mount_arg args = Some (pathToFiles (opts c) ++ ":/usercode/" ++ f)
    /\ workdir_arg args = Some ("/usercode/" ++ f).
Proof.
  intros Hf. exists (docker_args (opts c)). split.
  - unfold exec. destruct (lookup_runner _ _); reflexivity.
  - unfold docker_args, mount_arg, workdir_arg. rewrite Hf. split; reflexivity.
Qed.

(** C1: when the folder name is omitted, the constructor stores the
    documented default "code" in [this.folderName], but [exec] builds the
    mount and the working directory from [this.opts.folderName], which is
    undefined: the container is launched on [/usercode/undefined], not on
    [/usercode/code]. *)
Theorem exec_mount_folder_omitted :
  forall (compilers : list (list string)) (o : RawOptions) (c : Compiler),
    raw_folderName o = None ->
    snd (constructor o) = inr c ->
    this_folderName c = "code"
    /\ exists args,
        spawn_args (fst (exec compilers c)) = Some args
        /\ mount_arg args = Some (pathToFiles (opts c) ++ ":/usercode/undefined")
        /\ workdir_arg args = Some "/usercode/undefined"
        /\ mount_arg args <> Some (pathToFiles (opts c) ++ ":/usercode/code")
        /\ workdir_arg args <> Some "/usercode/code".
Proof.
  intros compilers o c Hf Hc.
  unfold constructor in Hc.
  destruct (not_a_number (raw_langNum o)); [discriminate|].
  destruct (not_a_string (raw_mainFile o)); [discriminate|].
  destruct (not_a_string (raw_pathToFiles o)); [discriminate|].
  destruct (not_a_string (raw_containerName o)); [discriminate|].
  simpl in Hc. injection Hc as <-. rewrite Hf. simpl. split; [reflexivity|].
  eexists. split.
  - unfold exec. destruct (lookup_runner _ _); reflexivity.
  - unfold mount_arg, workdir_arg, docker_args; simpl.
    repeat split; try discriminate.
    intros H. injection H as H. apply append_cancel_l in H. discriminate.
Qed.

Lemma exec_mount_folder_omitted_witness :
  raw_folderName gcc_raw = None
  /\ snd (constructor gcc_raw) = inr gcc_compiler
  /\ this_folderName gcc_compiler = "code"
  /\ exists args,
      spawn_args (fst (exec sample_catalog gcc_compiler)) = Some args
      /\ mount_arg args = Some (pathToFiles (opts gcc_compiler) ++ ":/usercode/undefined")
      /\ workdir_arg args = Some "/usercode/undefined"
      /\ mount_arg args <> Some (pathToFiles (opts gcc_compiler) ++ ":/usercode/code")
      /\ workdir_arg args <> Some "/usercode/code".
Proof.
  split; [reflexivity|]. split; [reflexivity|].
  apply (exec_mount_folder_omitted sample_catalog gcc_raw gcc_compiler); reflexivity.
Defined.

(** ** The step sequencer *)

(** The session [exec] leaves behind, spelled out. *)
Lemma started_session (compilers : list (list string)) (c : Compiler)
  (s : Session) (runner : list string) :
  lookup_runner compilers (langNum (opts c)) = Some runner ->
  started compilers c s ->
  s = {| this := c;
         process := Some {| pty_cols := 32; pty_rows := 200 |};
         checkInterval := Some Ticking;
         step1 := make_step1 runner (mainFile (opts c));
         step2 := make_step2 runner (mainFile (opts c));
         sentStep1 := false;
         sentStep2 := String.eqb (make_step2 runner (mainFile (opts c))) EmptyString;
         receivedFinalArrow := false;
         isLaunched := false;
         sentDone := false;
         timeouts := [] |}.
Proof.
  unfold started, exec. intros ->. simpl. intros H. injection H as <-.
  reflexivity.
Qed.




(** The flag guarding the erase after the final prompt is never set: it
    is [false] in every state a session reaches. *)
Lemma receivedFinalArrow_false (compilers : list (list string)) (c : Compiler)
  (s : Session) (tr : list Input) :
  started compilers c s -> receivedFinalArrow (final s tr) = false.
Proof.
  intros H. apply started_inv in H. destruct H as [_ H].
  apply (final_wired s tr) in H. apply H.
Qed.

(** C3: a session for the one-command entry ["python3"].  After the prompt
    has come back with both steps recorded (rule 1 fired and removed the
    container) [receivedFinalArrow] is still false, and the next chunk only
    produces its [inc] event: no DEL is written. *)
Theorem final_arrow_flag_never_set :
  exists s,
    started sample_catalog py_compiler s
    /\ let s' := final s [Data arrow; Timeout 0] in
       sentStep1 s' = true
       /\ sentStep2 s' = true
       /\ step s' (Data arrow)
          = (s', [Emit (Inc arrow); ExecCmd "docker rm -f box"])
       /\ receivedFinalArrow s' = false
       /\ step s' (Data "x") = (s', [Emit (Inc "x")])
       /\ pty_writes (effects s [Data arrow; Timeout 0; Data arrow; Data "x"])
          = ["python3 script.py" ++ CR].
Proof.
  eexists. split; [reflexivity|]. vm_compute. repeat split.
Qed.

(** The step2 command is empty exactly when the catalog entry has no
    usable second template; otherwise it ends in a carriage return. *)
Lemma append_CR_nonempty (x : string) : x ++ CR <> EmptyString.
Proof. destruct x; discriminate. Qed.

Lemma append_CR_not_DEL (x : string) : x ++ CR <> DEL.
Proof.
  destruct x as [|a x]; [discriminate|].
  simpl. unfold DEL, JS.fromCharCode. intros H. injection H as _ H.
  apply (append_CR_nonempty x H).
Qed.

Lemma make_step2_truthy (runner : list string) (main : string) :
  JS.truthy_str (nth_error runner 1) = true ->
  make_step2 runner main <> EmptyString.
Proof.
  unfold make_step2. intros ->. apply append_CR_nonempty.
Qed.

Lemma make_step2_falsy (runner : list string) (main : string) :
  JS.truthy_str (nth_error runner 1) = false ->
  make_step2 runner main = EmptyString.
Proof.
  unfold make_step2. intros ->. reflexivity.
Qed.

Lemma make_step2_not_DEL (runner : list string) (main : string) :
  make_step2 runner main <> DEL.
Proof.
  unfold make_step2. destruct (JS.truthy_str (nth_error runner 1)).
  - apply append_CR_not_DEL.
  - discriminate.
Qed.

(** Whatever writes the step2 command, other than [push], does so with
    [sentStep1] set. *)
Lemma step2_written_after_step1 (s : Session) (i : Input) :
  sequenced s ->
  step2 s <> EmptyString ->
  step2 s <> DEL ->
  (forall text, i <> Push text) ->
  In (PtyWrite (step2 s)) (snd (step s i)) ->
  sentStep1 (fst (step s i)) = true.
Proof.
  intros [Ht _] Hne Hdel Hp.
  destruct i; unfold step.
  - unfold onData, setTimeout, process_write.
    destruct (JS.includes e arrow && sentStep1 s && sentStep2 s);
      [simpl; intros [H|[H|[]]]; discriminate|].
    destruct (negb (sentStep1 s) && String.eqb e arrow);
      [simpl; intros [H|[H|[]]]; discriminate|].
    destruct (negb (sentStep2 s) && sentStep1 s && JS.includes e arrow);
      [simpl; intros [H|[H|[]]]; discriminate|].
    destruct ((negb (sentStep2 s) && sentStep1 s && negb (JS.includes e arrow))
              || receivedFinalArrow s);
      [|simpl; intros [H|[]]; discriminate].
    destruct (process s); simpl.
    + intros [H|[H|[]]]; [discriminate|]. injection H as H. congruence.
    + intros [H|[]]; discriminate.
  - destruct (nth_error (timeouts s) n) as [t|] eqn:En; [|intros []].
    assert (Hin : In t (timeouts s)) by (eapply nth_error_In; eauto).
    destruct t; unfold fire, process_write; simpl.
    + destruct (sentStep1 s) eqn:E; simpl; auto.
    + destruct (sentStep2 s); simpl; intros _; exact (Ht Hin).
    + intros [H|[]]; discriminate.
  - unfold onTick. destruct (checkInterval s) as [[|]|]; simpl;
      try (intros [H|[]]; discriminate); intros [].
  - unfold onProbe, _cleanUp, process_kill.
    destruct (negb (String.eqb out EmptyString) && negb (isLaunched s));
      [simpl; intros [H|[]]; discriminate|].
    destruct ((String.eqb out EmptyString && isLaunched s
               || (JS.indexOf out "minute" >? -1)%Z) && negb (sentDone s));
      [|intros []].
    simpl. destruct (checkInterval s), (process s); simpl;
      intuition discriminate.
  - exfalso. apply (Hp text). reflexivity.
  - unfold stop, setTimeout, process_kill. destruct (process s); simpl;
      intuition discriminate.
  - unfold resize. destruct (process s); simpl; intuition discriminate.
Qed.

(** C5: in every state a session reaches, [sentStep1] and [sentStep2] never
    go back to false; [sentStep2] is true only if [sentStep1] is true or
    there is no step2 command; without a step2 command (no second catalog
    entry, or an empty one) [sentStep2] is true from the start, and with one
    it starts false; and whenever anything but [push] writes the step2
    command to the pty, [sentStep1] has been set by then. *)
Theorem steps_monotonic_and_ordered :
  forall (compilers : list (list string)) (c : Compiler) (s : Session)
         (runner : list string) (tr : list Input) (i : Input),
    lookup_runner compilers (langNum (opts c)) = Some runner ->
    started compilers c s ->
    let s' := final s tr in
    (sentStep1 s' = true -> sentStep1 (fst (step s' i)) = true)
    /\ (sentStep2 s' = true -> sentStep2 (fst (step s' i)) = true)
    /\ (sentStep2 s' = true ->
        sentStep1 s' = true \/ JS.truthy_str (nth_error runner 1) = false)
    /\ (JS.truthy_str (nth_error runner 1) = false -> sentStep2 s = true)
    /\ (JS.truthy_str (nth_error runner 1) = true -> sentStep2 s = false)
    /\ (JS.truthy_str (nth_error runner 1) = true ->
        (forall text, i <> Push text) ->
        In (PtyWrite (step2 s')) (snd (step s' i)) ->
        sentStep1 (fst (step s' i)) = true).
Proof.
  intros compilers c s runner tr i Hr Hs s'.
  destruct (started_inv _ _ _ Hs) as [Hseq Hw].
  assert (Hseq' : sequenced s') by (apply final_sequenced, Hseq).
  assert (Hw' : wired s') by (apply final_wired, Hw).
  assert (H2 : step2 s' = make_step2 runner (mainFile (opts c))).
  { destruct (final_constants s tr) as (_ & E & _). unfold s'. rewrite E.
    rewrite (started_session _ _ _ _ Hr Hs). reflexivity. }
  destruct (step_flags_mono s' i) as (M1 & M2 & _ & _).
  split; [exact M1|]. split; [exact M2|]. split; [|split; [|split]].
  - intros E. destruct Hseq' as [_ Hq]. destruct (Hq E) as [Q|Q]; [left; exact Q|].
    right. rewrite H2 in Q. destruct (JS.truthy_str (nth_error runner 1)) eqn:T;
      [|reflexivity].
    exfalso. apply (make_step2_truthy runner (mainFile (opts c)) T). exact Q.
  - intros T. rewrite (started_session _ _ _ _ Hr Hs); simpl.
    rewrite (make_step2_falsy _ _ T). reflexivity.
  - intros T. rewrite (started_session _ _ _ _ Hr Hs); simpl.
    apply String.eqb_neq. apply make_step2_truthy, T.
  - intros T Hp Hin. apply (step2_written_after_step1 s' i); auto.
    + rewrite H2. apply make_step2_truthy, T.
    + rewrite H2. apply make_step2_not_DEL.
Qed.

Lemma steps_monotonic_and_ordered_witness :
  exists s,
    lookup_runner sample_catalog (langNum (opts gcc_compiler))
      = Some ["gcc main.c -o main"; "./{}"]
    /\ started sample_catalog gcc_compiler s
    /\ JS.truthy_str (nth_error ["gcc main.c -o main"; "./{}"] 1) = true
    /\ (forall text, Timeout 0 <> Push text)
    /\ In (PtyWrite (step2 (final s [Data arrow; Timeout 0; Data arrow])))
          (snd (step (final s [Data arrow; Timeout 0; Data arrow]) (Timeout 0)))
    /\ sentStep1 (fst (step (final s [Data arrow; Timeout 0; Data arrow])
                            (Timeout 0))) = true.
Proof.
  eexists.
  split; [reflexivity|]. split; [reflexivity|]. split; [reflexivity|].
  split; [discriminate|]. split; [left; reflexivity|].
  apply (steps_monotonic_and_ordered sample_catalog gcc_compiler _
           ["gcc main.c -o main"; "./{}"] [Data arrow; Timeout 0; Data arrow]
           (Timeout 0)).
  - reflexivity.
  - reflexivity.
  - reflexivity.
  - discriminate.
  - left; reflexivity.
Defined.




(** ** The lifecycle monitor *)

(** A step emits [done] at most once, only with [sentDone] unset before
    and set after, and always with an empty [out]. *)
Lemma step_done (s : Session) (i : Input) :
  (sentDone s = true -> count_done (snd (step s i)) = 0)
  /\ (count_done (snd (step s i)) <= 1)
  /\ (count_done (snd (step s i)) = 1 ->
      sentDone s = false /\ sentDone (fst (step s i)) = true).
Proof.
  open_step s i; case_step; simpl; unfold count_done; simpl;
    repeat split; intros; try congruence; try lia.
  all: match goal with
       | H : _ && negb (sentDone ?x) = true |- _ =>
           apply andb_prop in H; destruct H as [_ H];
           destruct (sentDone x); simpl in H; congruence
       end.
Qed.

(** A step emits [launched] at most once, only on a probe with output,
    with [isLaunched] unset before and set after. *)
Lemma step_launched (s : Session) (i : Input) :
  (isLaunched s = true -> count_launched (snd (step s i)) = 0)
  /\ (count_launched (snd (step s i)) <= 1)
  /\ (count_launched (snd (step s i)) = 1 ->
      isLaunched s = false /\ isLaunched (fst (step s i)) = true).
Proof.
  open_step s i; case_step; simpl; unfold count_launched; simpl;
    repeat split; intros; try congruence; try lia.
  all: match goal with
       | H : _ && negb (isLaunched ?x) = true |- _ =>
           apply andb_prop in H; destruct H as [_ H];
           destruct (isLaunched x); simpl in H; congruence
       end.
Qed.

Lemma count_done_bound (s : Session) (tr : list Input) :
  count_done (effects s tr) <= (if sentDone s then 0 else 1).
Proof.
  revert s. induction tr as [|i tr IH]; intros s.
  - simpl. unfold count_done; simpl. destruct (sentDone s); lia.
  - simpl. rewrite count_done_app.
    destruct (step_done s i) as (A & B & C).
    destruct (step_flags_mono s i) as (_ & _ & _ & M).
    specialize (IH (fst (step s i))).
    destruct (sentDone s) eqn:E.
    + rewrite (A eq_refl). rewrite (M eq_refl) in IH. lia.
    + destruct (Nat.eq_dec (count_done (snd (step s i))) 1) as [E1|E1].
      * destruct (C E1) as [_ D]. rewrite D in IH. lia.
      * destruct (sentDone (fst (step s i))); lia.
Qed.

Lemma count_launched_bound (s : Session) (tr : list Input) :
  count_launched (effects s tr) <= (if isLaunched s then 0 else 1).
Proof.
  revert s. induction tr as [|i tr IH]; intros s.
  - simpl. unfold count_launched; simpl. destruct (isLaunched s); lia.
  - simpl. rewrite count_launched_app.
    destruct (step_launched s i) as (A & B & C).
    destruct (step_flags_mono s i) as (_ & _ & M & _).
    specialize (IH (fst (step s i))).
    destruct (isLaunched s) eqn:E.
    + rewrite (A eq_refl). rewrite (M eq_refl) in IH. lia.
    + destruct (Nat.eq_dec (count_launched (snd (step s i))) 1) as [E1|E1].
      * destruct (C E1) as [_ D]. rewrite D in IH. lia.
      * destruct (isLaunched (fst (step s i))); lia.
Qed.

(** Exact accounting: the [done] events of a step are the flips of
    [sentDone], and likewise for [launched] and [isLaunched]. *)
Lemma step_done_exact (s : Session) (i : Input) :
  count_done (snd (step s i)) + Nat.b2n (sentDone s)
  = Nat.b2n (sentDone (fst (step s i))).
Proof.
  open_step s i; case_step; simpl; unfold count_done; simpl;
    try reflexivity.
  all: match goal with
       | H : _ && negb (sentDone ?x) = true |- _ =>
           apply andb_prop in H; destruct H as [_ H];
           destruct (sentDone x); simpl in H; [discriminate|reflexivity]
       end.
Qed.

Lemma step_launched_exact (s : Session) (i : Input) :
  count_launched (snd (step s i)) + Nat.b2n (isLaunched s)
  = Nat.b2n (isLaunched (fst (step s i))).
Proof.
  open_step s i; case_step; simpl; unfold count_launched; simpl;
    try reflexivity.
  all: match goal with
       | H : _ && negb (isLaunched ?x) = true |- _ =>
           apply andb_prop in H; destruct H as [_ H];
           destruct (isLaunched x); simpl in H; [discriminate|reflexivity]
       end.
Qed.

Lemma run_done_exact (s : Session) (tr : list Input) :
  count_done (effects s tr) + Nat.b2n (sentDone s)
  = Nat.b2n (sentDone (final s tr)).
Proof.
  revert s. induction tr as [|i tr IH]; intros s; simpl; [reflexivity|].
  rewrite count_done_app, <- IH, <- step_done_exact. lia.
Qed.

Lemma run_launched_exact (s : Session) (tr : list Input) :
  count_launched (effects s tr) + Nat.b2n (isLaunched s)
  = Nat.b2n (isLaunched (final s tr)).
Proof.
  revert s. induction tr as [|i tr IH]; intros s; simpl; [reflexivity|].
  rewrite count_launched_app, <- IH, <- step_launched_exact. lia.
Qed.

(** [indexOf] finds a text exactly when [includes] does. *)
Lemma indexOf_lower (s p : string) : (-1 <= JS.indexOf s p)%Z.
Proof.
  induction s as [|a s IH]; cbn [JS.indexOf JS.includes].
  - destruct (String.prefix p EmptyString); lia.
  - destruct (String.prefix p (String a s)); [lia|].
    destruct (JS.indexOf s p <? 0)%Z eqn:E; [lia|].
    apply Z.ltb_ge in E. lia.
Qed.

Lemma indexOf_includes (s p : string) :
  (JS.indexOf s p >? -1)%Z = JS.includes s p.
Proof.
  induction s as [|a s IH]; cbn [JS.indexOf JS.includes].
  - destruct (String.prefix p EmptyString); reflexivity.
  - destruct (String.prefix p (String a s)); [reflexivity|].
    rewrite <- IH. pose proof (indexOf_lower s p) as L.
    destruct (JS.indexOf s p <? 0)%Z eqn:E.
    + apply Z.ltb_lt in E.
      replace (JS.indexOf s p) with (-1)%Z by lia. reflexivity.
    + apply Z.ltb_ge in E. rewrite !Z.gtb_ltb.
      transitivity true; [|symmetry]; apply Z.ltb_lt; lia.
Qed.

(** A probe with output marks the session launched. *)
Lemma probe_output_launches (s : Session) (out : string) :
  out <> EmptyString -> isLaunched (fst (step s (Probe out))) = true.
Proof.
  intros H. apply String.eqb_neq in H.
  unfold step, onProbe, _cleanUp. rewrite H. simpl.
  destruct (isLaunched s) eqn:E; simpl; [|reflexivity].
  destruct ((JS.indexOf out "minute" >? -1)%Z && negb (sentDone s));
    [|exact E].
  destruct (checkInterval s); exact E.
Qed.

(** What a probe callback does once the session is launched and [done]
    has not been sent, when the output is empty or mentions "minute". *)
Lemma probe_exit (s : Session) (out : string) :
  wired s ->
  isLaunched s = true ->
  sentDone s = false ->
  out = EmptyString \/ JS.includes out "minute" = true ->
  step s (Probe out)
  = (with_checkInterval (with_sentDone s true) (Some Cleared),
     [Emit (Done EmptyString (JS.includes out "minute"));
      ClearInterval; PtyKill "1"]).
Proof.
  intros (Hp & Hc & _) HL HD Hout.
  unfold step, onProbe, _cleanUp, process_kill.
  rewrite HL, HD, indexOf_includes. simpl. rewrite andb_false_r, andb_true_r.
  assert (E : (String.eqb out EmptyString || JS.includes out "minute") = true).
  { destruct Hout as [->| ->]; [reflexivity| apply orb_true_r]. }
  rewrite andb_true_r, E. simpl.
  destruct (checkInterval s); [|contradiction]. simpl.
  destruct (process s); [reflexivity|contradiction].
Qed.

(** The first probe with output only marks the session launched. *)
Lemma probe_first_output (s : Session) (out : string) :
  isLaunched s = false ->
  out <> EmptyString ->
  step s (Probe out) = (with_isLaunched s true, [Emit Launched]).
Proof.
  intros L H. apply String.eqb_neq in H.
  unfold step, onProbe. rewrite L, H. reflexivity.
Qed.

(** As long as every probe comes back empty, the session is neither
    launched nor done. *)
Lemma step_unseen (s : Session) (i : Input) :
  (forall out, i = Probe out -> out = EmptyString) ->
  isLaunched s = false ->
  sentDone s = false ->
  isLaunched (fst (step s i)) = false /\ sentDone (fst (step s i)) = false.
Proof.
  intros Hp L D. destruct i.
  - unfold step, onData, setTimeout. case_step; simpl; auto.
  - unfold step. destruct (nth_error (timeouts s) n) as [[| |]|]; unfold fire;
      simpl; auto.
    + destruct (sentStep1 s); simpl; auto.
    + destruct (sentStep2 s); simpl; auto.
  - unfold step, onTick. case_step; simpl; auto.
  - rewrite (Hp out eq_refl). unfold step, onProbe. rewrite L, D. simpl. auto.
  - simpl; auto.
  - simpl; auto.
  - unfold step, resize. case_step; simpl; auto.
Qed.

Lemma final_unseen (s : Session) (tr : list Input) :
  (forall out, In (Probe out) tr -> out = EmptyString) ->
  isLaunched s = false ->
  sentDone s = false ->
  isLaunched (final s tr) = false /\ sentDone (final s tr) = false.
Proof.
  revert s. induction tr as [|i tr IH]; intros s Hp L D; simpl; [auto|].
  destruct (step_unseen s i) as [L' D']; auto.
  - intros out ->. apply Hp. left. reflexivity.
  - apply IH; auto. intros out H. apply Hp. right. exact H.
Qed.

(** C4, as the claim states it, fails: the shell is up and step1 has been
    written when [stop()] is called, before the first probe.  The pty is
    killed, the container removed, and every probe afterwards returns
    nothing; as [isLaunched] was never set, no [done] is emitted, and the
    interval keeps probing. *)
Lemma stop_before_launch_counterexample :
  exists s,
    started sample_catalog gcc_compiler s
    /\ let tr := [Data arrow; Timeout 0; Stop; Timeout 0;
                  Tick; Probe ""; Tick; Probe ""] in
       effects s tr
       = [ Emit (Inc arrow); SetTimeout SendStep1 100;
           PtyWrite ("gcc main.c -o main main.c" ++ CR);
           PtyKill "1"; SetTimeout RemoveContainer 200;
           ExecCmd "docker rm -f box";
           ExecCmd "docker ps | grep box";
           ExecCmd "docker ps | grep box" ]
       /\ count_done (effects s tr) = 0
       /\ sentDone (final s tr) = false
       /\ checkInterval (final s tr) = Some Ticking.
Proof.
  eexists. split; [reflexivity|]. vm_compute. repeat split.
Qed.

(** C4 (amended): in every session [done] is emitted at most once; once
    [sentDone] is set it stays set and no step emits [done] again, and a
    step that emits [done] is the one step that sets the flag.  [done] is
    emitted exactly once on every run in which a probe returns output (the
    environment is seen running) and a later probe returns nothing (the
    environment is gone, after the shell returned or after [stop()]) or
    mentions "minute" (the runtime ceiling).  On a run in which no probe
    ever returns output it is not emitted at all. *)
Theorem done_emitted_once :
  forall (compilers : list (list string)) (c : Compiler) (s : Session),
    started compilers c s ->
    (forall tr, count_done (effects s tr) <= 1)
    /\ (forall tr i,
          sentDone (final s tr) = true ->
          sentDone (fst (step (final s tr) i)) = true
          /\ count_done (snd (step (final s tr) i)) = 0)
    /\ (forall tr i,
          count_done (snd (step (final s tr) i)) = 1 ->
          sentDone (final s tr) = false
          /\ sentDone (fst (step (final s tr) i)) = true)
    /\ (forall tr1 out1 tr2 out2 tr3,
          out1 <> EmptyString ->
          out2 = EmptyString \/ JS.includes out2 "minute" = true ->
          count_done
            (effects s (tr1 ++ Probe out1 :: tr2 ++ Probe out2 :: tr3)) = 1)
    /\ (forall tr,
          (forall out, In (Probe out) tr -> out = EmptyString) ->
          count_done (effects s tr) = 0).
Proof.
  intros compilers c s Hs.
  destruct (started_inv _ _ _ Hs) as [_ Hw].
  assert (H0 : sentDone s = false /\ isLaunched s = false).
  { unfold started, exec in Hs.
    destruct (lookup_runner compilers (langNum (opts c))); [|discriminate].
    simpl in Hs. injection Hs as <-. split; reflexivity. }
  destruct H0 as [H0 L0].
  split; [|split; [|split; [|split]]].
  - intros tr. pose proof (count_done_bound s tr) as B. rewrite H0 in B. exact B.
  - intros tr i E. destruct (step_flags_mono (final s tr) i) as (_ & _ & _ & M).
    destruct (step_done (final s tr) i) as (A & _ & _). auto.
  - intros tr i E. destruct (step_done (final s tr) i) as (_ & _ & C). auto.
  - intros tr1 out1 tr2 out2 tr3 Ho1 Ho2.
    pose proof (run_done_exact s (tr1 ++ Probe out1 :: tr2 ++ Probe out2 :: tr3)) as X.
    rewrite H0 in X. simpl in X. rewrite Nat.add_0_r in X. rewrite X.
    replace (tr1 ++ Probe out1 :: tr2 ++ Probe out2 :: tr3)%list
      with ((tr1 ++ Probe out1 :: tr2) ++ Probe out2 :: tr3)%list
      by (rewrite <- app_assoc; reflexivity).
    rewrite final_app. cbn [final].
    set (s2 := final s (tr1 ++ Probe out1 :: tr2)).
    assert (L : isLaunched s2 = true).
    { unfold s2. rewrite final_app. cbn [final].
      apply final_flags_mono. apply probe_output_launches, Ho1. }
    assert (W : wired s2) by (apply final_wired, Hw).
    assert (D : sentDone (fst (step s2 (Probe out2))) = true).
    { destruct (sentDone s2) eqn:E.
      - apply step_flags_mono, E.
      - rewrite (probe_exit s2 out2 W L E Ho2). reflexivity. }
    destruct (final_flags_mono (fst (step s2 (Probe out2))) tr3) as (_ & _ & _ & M).
    rewrite (M D). reflexivity.
  - intros tr Hp. pose proof (run_done_exact s tr) as X.
    destruct (final_unseen s tr Hp L0 H0) as [_ D].
    rewrite H0, D in X. simpl in X. lia.
Qed.

Lemma done_emitted_once_witness :
  exists s,
    started sample_catalog gcc_compiler s
    /\ "box" <> EmptyString
    /\ ("" = EmptyString \/ JS.includes "" "minute" = true)
    /\ count_done
         (effects s ([Data arrow; Tick] ++ Probe "box"
                       :: [Timeout 0; Stop; Timeout 0; Tick] ++ Probe ""
                       :: [Probe ""])) = 1.
Proof.
  eexists. split; [reflexivity|]. split; [discriminate|].
  split; [left; reflexivity|].
  apply (proj1 (proj2 (proj2 (proj2
           (done_emitted_once sample_catalog gcc_compiler _ eq_refl))))).
  - discriminate.
  - left; reflexivity.
Defined.

(** The three exit paths on the sample session, each seen by the probe
    after the container was seen running: the shell returning to its
    prompt (rule 1 removes the container), the runtime ceiling, and
    [stop()]. *)
Example natural_return_done :
  emitted (effects gcc_session
             [Tick; Probe "box"; Data arrow; Timeout 0; Data arrow; Timeout 0;
              Data ("42" ++ arrow); Tick; Probe ""; Tick])
  = [Launched; Inc arrow; Inc arrow; Inc ("42" ++ arrow); Done "" false].
Proof. reflexivity. Qed.

Example runtime_ceiling_done :
  emitted (effects gcc_session
             [Tick; Probe "box Up 2 seconds"; Tick;
              Probe "box Up About a minute"; Probe "box Up About a minute"])
  = [Launched; Done "" true].
Proof. reflexivity. Qed.

Example stop_after_launch_done :
  emitted (effects gcc_session
             [Tick; Probe "box"; Stop; Timeout 0; Tick; Probe ""; Probe ""])
  = [Launched; Done "" false].
Proof. reflexivity. Qed.

(** C7, as the claim states it, fails: the first probe that returns output
    only marks the session launched, also when that output mentions
    "minute"; no [done] is emitted on it. *)
Lemma first_probe_minute_counterexample :
  exists s,
    started sample_catalog gcc_compiler s
    /\ let out := "3f2a cc-compiler /bin/bash About a minute ago Up About a minute box" in
       JS.includes out "minute" = true
       /\ snd (step (final s [Tick]) (Probe out)) = [Emit Launched]
       /\ count_done (effects s [Tick; Probe out]) = 0.
Proof.
  eexists. split; [reflexivity|]. vm_compute. repeat split.
Qed.

(** C7 (amended): take a session in which some probe has returned output
    and [done] has not been emitted.  A probe that now returns nothing
    emits [done] with [timedOut: false] in that very callback and clears
    the interval, after which the interval timer starts no probe; a probe
    whose output contains "minute" does the same with [timedOut: true].
    The first probe that returns output only emits [launched], whatever
    its text. *)
Theorem probe_classification :
  forall (compilers : list (list string)) (c : Compiler) (s0 : Session)
         (tr1 : list Input) (out1 : string) (tr2 : list Input),
    started compilers c s0 ->
    out1 <> EmptyString ->
    let s := final s0 (tr1 ++ Probe out1 :: tr2) in
    sentDone s = false ->
    (snd (step s (Probe ""))
     = [Emit (Done "" false); ClearInterval; PtyKill "1"]
     /\ checkInterval (fst (step s (Probe ""))) = Some Cleared
     /\ snd (step (fst (step s (Probe ""))) Tick) = [])
    /\ (forall out,
          JS.includes out "minute" = true ->
          snd (step s (Probe out))
          = [Emit (Done "" true); ClearInterval; PtyKill "1"]
          /\ checkInterval (fst (step s (Probe out))) = Some Cleared
          /\ snd (step (fst (step s (Probe out))) Tick) = [])
    /\ (forall tr out,
          isLaunched (final s0 tr) = false ->
          out <> EmptyString ->
          snd (step (final s0 tr) (Probe out)) = [Emit Launched]).
Proof.
  intros compilers c s0 tr1 out1 tr2 Hs Ho s HD.
  destruct (started_inv _ _ _ Hs) as [_ Hw].
  assert (W : wired s) by (apply final_wired, Hw).
  assert (L : isLaunched s = true).
  { unfold s. rewrite final_app. cbn [final].
    apply final_flags_mono. apply probe_output_launches, Ho. }
  split; [|split].
  - rewrite (probe_exit s "" W L HD (or_introl eq_refl)). repeat split.
  - intros out Hm.
    rewrite (probe_exit s out W L HD (or_intror Hm)). rewrite Hm. repeat split.
  - intros tr out L0 Hn. rewrite (probe_first_output _ _ L0 Hn). reflexivity.
Qed.

Lemma probe_classification_witness :
  exists s0,
    started sample_catalog gcc_compiler s0
    /\ "box" <> EmptyString
    /\ sentDone (final s0 ([Tick] ++ Probe "box" :: [Tick])) = false
    /\ JS.includes "box Up About a minute" "minute" = true
    /\ snd (step (final s0 ([Tick] ++ Probe "box" :: [Tick]))
                 (Probe "box Up About a minute"))
       = [Emit (Done "" true); ClearInterval; PtyKill "1"].
Proof.
  eexists. split; [reflexivity|]. split; [discriminate|].
  split; [reflexivity|]. split; [reflexivity|].
  apply (probe_classification sample_catalog gcc_compiler _ [Tick] "box" [Tick]
           eq_refl).
  - discriminate.
  - reflexivity.
  - reflexivity.
Defined.

(** [launched] is emitted by nothing but a probe callback that received
    output while [isLaunched] was unset. *)
Lemma launched_only_on_probe (s : Session) (i : Input) :
  In (Emit Launched) (snd (step s i)) ->
  exists out, i = Probe out /\ out <> EmptyString /\ isLaunched s = false.
Proof.
  destruct i; unfold step.
  - unfold onData, setTimeout, process_write.
    destruct (JS.includes e arrow && sentStep1 s && sentStep2 s);
      [simpl; intuition discriminate|].
    destruct (negb (sentStep1 s) && String.eqb e arrow);
      [simpl; intuition discriminate|].
    destruct (negb (sentStep2 s) && sentStep1 s && JS.includes e arrow);
      [simpl; intuition discriminate|].
    destruct ((negb (sentStep2 s) && sentStep1 s && negb (JS.includes e arrow))
              || receivedFinalArrow s), (process s);
      simpl; intuition discriminate.
  - destruct (nth_error (timeouts s) n) as [[| |]|]; unfold fire, process_write;
      simpl.
    + destruct (sentStep1 s), (process s); simpl; intuition discriminate.
    + destruct (sentStep2 s), (process s); simpl; intuition discriminate.
    + intuition discriminate.
    + intros [].
  - unfold onTick. destruct (checkInterval s) as [[|]|]; simpl;
      intuition discriminate.
  - unfold onProbe, _cleanUp, process_kill.
    destruct (negb (String.eqb out EmptyString) && negb (isLaunched s)) eqn:E.
    + intros _. exists out. apply andb_prop in E. destruct E as [E1 E2].
      apply negb_true_iff in E1, E2. apply String.eqb_neq in E1. auto.
    + destruct ((String.eqb out EmptyString && isLaunched s
                 || (JS.indexOf out "minute" >? -1)%Z) && negb (sentDone s));
        [|intros []].
      simpl. destruct (checkInterval s), (process s); simpl;
        intuition discriminate.
  - unfold push, process_write. destruct (process s); simpl;
      intuition discriminate.
  - unfold stop, setTimeout, process_kill. destruct (process s); simpl;
      intuition discriminate.
  - unfold resize. destruct (process s); simpl; intuition discriminate.
Qed.

(** C8: in every session [launched] is emitted at most once; a step emits
    it only as a probe callback whose output is non-empty, with
    [isLaunched] unset before and set after; and once [isLaunched] is set
    no step emits it. *)
Theorem launched_at_most_once :
  forall (compilers : list (list string)) (c : Compiler) (s : Session)
         (tr : list Input) (i : Input),
    started compilers c s ->
    count_launched (effects s tr) <= 1
    /\ (In (Emit Launched) (snd (step (final s tr) i)) ->
        exists out,
          i = Probe out /\ out <> EmptyString
          /\ isLaunched (final s tr) = false
          /\ isLaunched (fst (step (final s tr) i)) = true)
    /\ (isLaunched (final s tr) = true ->
        ~ In (Emit Launched) (snd (step (final s tr) i))).
Proof.
  intros compilers c s tr i Hs. split; [|split].
  - pose proof (count_launched_bound s tr) as B.
    destruct (isLaunched s); lia.
  - intros H. destruct (launched_only_on_probe _ _ H) as (out & -> & Ho & L).
    exists out. repeat split; auto. apply probe_output_launches, Ho.
  - intros L H. destruct (launched_only_on_probe _ _ H) as (out & _ & _ & L').
    congruence.
Qed.

Lemma launched_at_most_once_witness :
  exists s,
    started sample_catalog gcc_compiler s
    /\ In (Emit Launched) (snd (step (final s [Tick]) (Probe "box")))
    /\ count_launched (effects s [Tick; Probe "box"; Tick; Probe "box"]) <= 1
    /\ exists out,
         Probe "box" = Probe out /\ out <> EmptyString
         /\ isLaunched (final s [Tick]) = false
         /\ isLaunched (fst (step (final s [Tick]) (Probe "box"))) = true.
Proof.
  eexists. split; [reflexivity|]. split; [left; reflexivity|].
  split.
  - apply (launched_at_most_once sample_catalog gcc_compiler _
             [Tick; Probe "box"; Tick; Probe "box"] Tick eq_refl).
  - apply (launched_at_most_once sample_catalog gcc_compiler _
             [Tick] (Probe "box") eq_refl).
    left; reflexivity.
Defined.

Lemma step_done_payload (s : Session) (i : Input) (out : string) (t : bool) :
  In (Emit (Done out t)) (snd (step s i)) -> out = EmptyString.
Proof.
  destruct i; unfold step.
  - unfold onData, setTimeout, process_write.
    destruct (JS.includes e arrow && sentStep1 s && sentStep2 s);
      [simpl; intuition discriminate|].
    destruct (negb (sentStep1 s) && String.eqb e arrow);
      [simpl; intuition discriminate|].
    destruct (negb (sentStep2 s) && sentStep1 s && JS.includes e arrow);
      [simpl; intuition discriminate|].
    destruct ((negb (sentStep2 s) && sentStep1 s && negb (JS.includes e arrow))
              || receivedFinalArrow s), (process s);
      simpl; intuition discriminate.
  - destruct (nth_error (timeouts s) n) as [[| |]|]; unfold fire, process_write;
      simpl.
    + destruct (sentStep1 s), (process s); simpl; intuition discriminate.
    + destruct (sentStep2 s), (process s); simpl; intuition discriminate.
    + intuition discriminate.
    + intros [].
  - unfold onTick. destruct (checkInterval s) as [[|]|]; simpl;
      intuition discriminate.
  - unfold onProbe, _cleanUp, process_kill.
    destruct (negb (String.eqb out0 EmptyString) && negb (isLaunched s));
      [simpl; intuition discriminate|].
    destruct ((String.eqb out0 EmptyString && isLaunched s
               || (JS.indexOf out0 "minute" >? -1)%Z) && negb (sentDone s));
      [|intros []].
    simpl. destruct (checkInterval s), (process s); simpl;
      intros H; repeat (destruct H as [H|H]); try discriminate; try contradiction;
      injection H as H _; symmetry; exact H.
  - unfold push, process_write. destruct (process s); simpl;
      intuition discriminate.
  - unfold stop, setTimeout, process_kill. destruct (process s); simpl;
      intuition discriminate.
  - unfold resize. destruct (process s); simpl; intuition discriminate.
Qed.

(** C10: every [done] event a session emits, on whatever path, carries
    the empty string as [out]. *)
Theorem done_payload_empty :
  forall (s : Session) (tr : list Input) (out : string) (timedOut : bool),
    In (Emit (Done out timedOut)) (effects s tr) -> out = EmptyString.
Proof.
  intros s tr. revert s. induction tr as [|i tr IH]; intros s out t H.
  - destruct H.
  - simpl in H. apply in_app_or in H. destruct H as [H|H].
    + eapply step_done_payload; eauto.
    + eapply IH; eauto.
Qed.

Lemma done_payload_empty_witness :
  In (Emit (Done "" true))
     (effects gcc_session [Tick; Probe "box"; Tick; Probe "box Up About a minute"])
  /\ emitted (effects gcc_session
                [Tick; Probe "box"; Tick; Probe "box Up About a minute"])
     = [Launched; Done "" true]
  /\ "" = EmptyString.
Proof.
  assert (H : In (Emit (Done "" true))
                (effects gcc_session
                   [Tick; Probe "box"; Tick; Probe "box Up About a minute"])).
  { vm_compute. right; right; right; left. reflexivity. }
  split; [exact H|]. split; [reflexivity|].
  exact (done_payload_empty gcc_session _ "" true H).
Defined.

(** ** Construction *)

Lemma not_a_string_spec (v : JS.Value) :
  not_a_string v = negb (nonempty_string v).
Proof.
  destruct v; unfold not_a_string; simpl;
    rewrite ?orb_true_r, ?orb_false_r; reflexivity.
Qed.

(** The number check rejects exactly what is missing, not of type number,
    or NaN; every other number passes, 0 and -0 included. *)
Lemma not_a_number_spec (v : JS.Value) :
  not_a_number v = bad_langNum v.
Proof.
  destruct v; unfold not_a_number; simpl;
    rewrite ?orb_true_r, ?orb_false_r; try reflexivity.
  destruct x as [sg|sg| |sg m e]; try destruct sg; reflexivity.
Qed.

Lemma not_a_number_bad (v : JS.Value) :
  not_a_number v = true -> bad_langNum v = true.
Proof.
  rewrite not_a_number_spec. auto.
Qed.

Lemma not_a_number_mistyped (v : JS.Value) :
  is_number v = false -> not_a_number v = true.
Proof.
  destruct v; try discriminate; intros _; unfold not_a_number; simpl;
    try reflexivity; apply orb_true_r.
Qed.

(** C9: the constructor never touches the outside world.  When [langNum]
    is not a number, or [mainFile], [pathToFiles] or [containerName] is
    missing or not a non-empty string, it throws the error of a field that
    is missing or invalid (the first such field in the order langNum,
    mainFile, pathToFiles, containerName; for [langNum], when it is not a
    number, that very field).  With [langNum] 0 (of either sign) and the
    three strings in place it returns the object. *)
Theorem constructor_validates :
  forall o : RawOptions,
    fst (constructor o) = []
    /\ (is_number (raw_langNum o) = false
        \/ nonempty_string (raw_mainFile o) = false
        \/ nonempty_string (raw_pathToFiles o) = false
        \/ nonempty_string (raw_containerName o) = false ->
        exists field,
          snd (constructor o) = inl (error_for field) /\ offending o field)
    /\ (is_number (raw_langNum o) = false ->
        snd (constructor o) = inl (error_for "langNum"))
    /\ (forall sg : bool,
          raw_langNum o = JS.Number (S754_zero sg) ->
          nonempty_string (raw_mainFile o) = true ->
          nonempty_string (raw_pathToFiles o) = true ->
          nonempty_string (raw_containerName o) = true ->
          exists c,
            snd (constructor o) = inr c
            /\ langNum (opts c) = S754_zero sg).
Proof.
  intros o. unfold constructor. rewrite !not_a_string_spec.
  split; [|split; [|split]].
  - destruct (not_a_number (raw_langNum o)),
      (nonempty_string (raw_mainFile o)),
      (nonempty_string (raw_pathToFiles o)),
      (nonempty_string (raw_containerName o)); reflexivity.
  - intros H.
    destruct (not_a_number (raw_langNum o)) eqn:EN.
    { exists "langNum". split; [reflexivity|]. left. split; [reflexivity|].
      apply not_a_number_bad, EN. }
    destruct (nonempty_string (raw_mainFile o)) eqn:EM; simpl.
    2:{ exists "mainFile". split; [reflexivity|]. right; left. auto. }
    destruct (nonempty_string (raw_pathToFiles o)) eqn:EP; simpl.
    2:{ exists "pathToFiles". split; [reflexivity|]. right; right; left. auto. }
    destruct (nonempty_string (raw_containerName o)) eqn:EC; simpl.
    2:{ exists "containerName". split; [reflexivity|]. right; right; right. auto. }
    exfalso. destruct H as [H|[H|[H|H]]]; try discriminate.
    apply not_a_number_mistyped in H. congruence.
  - intros H. rewrite (not_a_number_mistyped _ H). reflexivity.
  - intros sg HL HM HP HC. rewrite HL, HM, HP, HC. simpl.
    eexists. split; reflexivity.
Qed.

Lemma constructor_validates_witness :
  (is_number (raw_langNum bad_raw) = false
   \/ nonempty_string (raw_mainFile bad_raw) = false
   \/ nonempty_string (raw_pathToFiles bad_raw) = false
   \/ nonempty_string (raw_containerName bad_raw) = false)
  /\ snd (constructor bad_raw) = inl (error_for "pathToFiles")
  /\ (exists field,
        snd (constructor bad_raw) = inl (error_for field)
        /\ offending bad_raw field)
  /\ (exists c,
        snd (constructor py_raw) = inr c /\ langNum (opts c) = S754_zero false).
Proof.
  split; [right; right; left; reflexivity|].
  split; [reflexivity|]. split.
  - apply (constructor_validates bad_raw). right; right; left; reflexivity.
  - apply (proj2 (proj2 (proj2 (constructor_validates py_raw))) false);
      reflexivity.
Defined.

(** * Further properties of the coordinator *)

(** ** The I/O relay *)

Lemma incs_app (a b : list Emitted) : incs (a ++ b) = (incs a ++ incs b)%list.
Proof.
  induction a as [|x a IH]; simpl; [reflexivity|].
  destruct x; simpl; rewrite ?IH; reflexivity.
Qed.


Lemma step_incs (s : Session) (i : Input) :
  incs (emitted (snd (step s i))) = chunks [i].
Proof.
  open_step s i; case_step; reflexivity.
Qed.

(** X1: whatever the state of the session, the [inc] events it emits
    carry exactly the chunks the pty produced, each once, unchanged and in
    the order of their arrival. *)
Theorem inc_relays_every_chunk :
  forall (s : Session) (tr : list Input),
    incs (emitted (effects s tr)) = chunks tr.
Proof.
  intros s tr. revert s. induction tr as [|i tr IH]; intros s; [reflexivity|].
  cbn [effects]. rewrite emitted_app, incs_app, IH, step_incs.
  destruct i; reflexivity.
Qed.









(** ** What the sequencer writes *)

Lemma commands_app (a b : list Effect) :
  commands (a ++ b) = (commands a ++ commands b)%list.
Proof.
  unfold commands. rewrite pty_writes_app, filter_app. reflexivity.
Qed.

Lemma make_step1_not_DEL (runner : list string) (main : string) :
  make_step1 runner main <> DEL.
Proof.
  unfold make_step1. destruct (JS.template (nth_error runner 0)) as [|a [|b t]];
    simpl; unfold DEL, JS.fromCharCode; intros H; [discriminate| |];
    injection H as _ H; discriminate.
Qed.

Lemma started_disciplined (compilers : list (list string)) (c : Compiler)
  (s : Session) :
  started compilers c s -> disciplined s.
Proof.
  intros Hs. destruct (started_inv _ _ _ Hs) as [Hq (_ & _ & Hr)].
  unfold started, exec in Hs.
  destruct (lookup_runner compilers (langNum (opts c))) as [runner|];
    [|discriminate].
  simpl in Hs. injection Hs as <-.
  repeat split; try apply Hq; simpl.
  - unfold present; simpl. intros ->. reflexivity.
  - apply make_step1_not_DEL.
  - apply make_step2_not_DEL.
Qed.

Lemma step_disciplined (s : Session) (i : Input) :
  disciplined s -> disciplined (fst (step s i)).
Proof.
  intros (Hq & Hp & Hr & H1 & H2).
  destruct (step_constants s i) as (E1 & E2 & _).
  destruct (step_flags_mono s i) as (_ & M2 & _ & _).
  unfold disciplined, present.
  rewrite E1, E2, step_receivedFinalArrow.
  repeat split; auto; apply step_sequenced; exact Hq.
Qed.

Lemma final_disciplined (s : Session) (tr : list Input) :
  disciplined s -> disciplined (final s tr).
Proof.
  revert s. induction tr as [|i tr IH]; intros s H; simpl; [exact H|].
  apply IH, step_disciplined, H.
Qed.

Lemma commands_write (d : string) :
  d <> DEL -> commands [PtyWrite d] = [d].
Proof.
  intros H. apply String.eqb_neq in H. unfold commands; simpl.
  rewrite H. reflexivity.
Qed.

(** One step adds to the commands written exactly what it adds to the
    record of the flags. *)
Lemma step_commands (s : Session) (i : Input) :
  disciplined s ->
  wired s ->
  not_push i ->
  (delivered s ++ commands (snd (step s i)))%list = delivered (fst (step s i)).
Proof.
  intros ((Ht & Hs2) & Hp & Hr & H1 & H2) (Hw & _ & _) Hn.
  destruct (process s) as [pty|] eqn:Epty; [clear Hw|contradiction].
  destruct i; unfold step.
  - unfold onData, setTimeout, process_write. rewrite Hr, orb_false_r, Epty.
    destruct (JS.includes e arrow && sentStep1 s && sentStep2 s);
      [apply app_nil_r|].
    destruct (negb (sentStep1 s) && String.eqb e arrow); [apply app_nil_r|].
    destruct (negb (sentStep2 s) && sentStep1 s && JS.includes e arrow);
      [apply app_nil_r|].
    destruct (negb (sentStep2 s) && sentStep1 s && negb (JS.includes e arrow));
      apply app_nil_r.
  - destruct (nth_error (timeouts s) n) as [t|] eqn:En; [|apply app_nil_r].
    assert (Hin : In t (timeouts s)) by (eapply nth_error_In; eauto).
    destruct t; unfold fire, process_write; simpl; rewrite ?Epty.
    + destruct (sentStep1 s) eqn:E1; [apply app_nil_r|].
      unfold delivered; simpl. rewrite E1, (commands_write _ H1).
      destruct (sentStep2 s) eqn:E2; [|reflexivity].
      destruct (Hs2 eq_refl) as [Q|Q]; [congruence|].
      rewrite Q. reflexivity.
    + assert (E1 : sentStep1 s = true) by auto.
      destruct (sentStep2 s) eqn:E2; [apply app_nil_r|].
      unfold delivered; simpl. rewrite E1, E2, (commands_write _ H2). simpl.
      destruct (String.eqb (step2 s) EmptyString) eqn:Q; [|reflexivity].
      apply String.eqb_eq in Q. rewrite (Hp Q) in E2. discriminate.
    + apply app_nil_r.
  - unfold onTick. destruct (checkInterval s) as [[|]|]; apply app_nil_r.
  - unfold onProbe, _cleanUp, process_kill.
    destruct (negb (String.eqb out EmptyString) && negb (isLaunched s));
      [apply app_nil_r|].
    destruct ((String.eqb out EmptyString && isLaunched s
               || (JS.indexOf out "minute" >? -1)%Z) && negb (sentDone s));
      [|apply app_nil_r].
    simpl. rewrite Epty. destruct (checkInterval s); apply app_nil_r.
  - exfalso. apply (Hn text). reflexivity.
  - unfold stop, setTimeout, process_kill. rewrite Epty. apply app_nil_r.
  - unfold resize. rewrite Epty. apply app_nil_r.
Qed.

Lemma run_commands (s : Session) (tr : list Input) :
  disciplined s ->
  wired s ->
  no_push tr ->
  (delivered s ++ commands (effects s tr))%list = delivered (final s tr).
Proof.
  revert s. induction tr as [|i tr IH]; intros s Hd Hw Hn; [apply app_nil_r|].
  inversion Hn as [|? ? Hi Htr]; subst.
  cbn [effects final]. rewrite commands_app, app_assoc.
  rewrite (step_commands s i Hd Hw Hi).
  apply IH; [apply step_disciplined, Hd | apply step_wired, Hw | exact Htr].
Qed.

(** X3: as long as the caller does not [push], the texts a session writes
    to the pty, the erase character left aside, are at every moment exactly
    the commands its flags record: nothing before [sentStep1], then step1
    alone, then step1 followed by step2.  No command is written twice,
    however many prompts arrive and timers fire, and never step2 first. *)
Theorem commands_follow_flags :
  forall (compilers : list (list string)) (c : Compiler) (s : Session)
         (tr : list Input),
    started compilers c s ->
    no_push tr ->
    commands (effects s tr)
    = (if sentStep1 (final s tr) then
         step1 s :: (if sentStep2 (final s tr)
                        && negb (String.eqb (step2 s) EmptyString)
                     then [step2 s] else [])
       else []).
Proof.
  intros compilers c s tr Hs Hn.
  pose proof (run_commands s tr (started_disciplined _ _ _ Hs)
                (proj2 (started_inv _ _ _ Hs)) Hn) as H.
  assert (D0 : delivered s = []).
  { unfold started, exec in Hs.
    destruct (lookup_runner compilers (langNum (opts c))); [|discriminate].
    simpl in Hs. injection Hs as <-. reflexivity. }
  rewrite D0 in H. simpl in H. rewrite H. unfold delivered.
  destruct (final_constants s tr) as (-> & -> & _). reflexivity.
Qed.

Lemma commands_follow_flags_witness :
  started sample_catalog gcc_compiler gcc_session
  /\ no_push [Data arrow; Data arrow; Timeout 0; Timeout 0; Data "x";
              Data arrow; Data ("$ " ++ arrow); Timeout 1; Timeout 0]
  /\ commands (effects gcc_session
                 [Data arrow; Data arrow; Timeout 0; Timeout 0; Data "x";
                  Data arrow; Data ("$ " ++ arrow); Timeout 1; Timeout 0])
     = ["gcc main.c -o main main.c" ++ CR; "./main" ++ CR].
Proof.
  assert (N : no_push [Data arrow; Data arrow; Timeout 0; Timeout 0; Data "x";
                       Data arrow; Data ("$ " ++ arrow); Timeout 1; Timeout 0]).
  { repeat constructor; intros text; discriminate. }
  split; [reflexivity|]. split; [exact N|].
  exact (commands_follow_flags sample_catalog gcc_compiler gcc_session _
           eq_refl N).
Defined.


Lemma erase_only_between_steps (s : Session) (i : Input) :
  disciplined s ->
  not_push i ->
  In (PtyWrite DEL) (snd (step s i)) ->
  exists e,
    i = Data e /\ sentStep1 s = true /\ sentStep2 s = false
    /\ JS.includes e arrow = false.
Proof.
  intros ((Ht & Hs2) & Hp & Hr & H1 & H2) Hn.
  destruct i; unfold step.
  - unfold onData, setTimeout, process_write. rewrite Hr, orb_false_r.
    destruct (JS.includes e arrow && sentStep1 s && sentStep2 s);
      [simpl; intuition discriminate|].
    destruct (negb (sentStep1 s) && String.eqb e arrow);
      [simpl; intuition discriminate|].
    destruct (negb (sentStep2 s) && sentStep1 s && JS.includes e arrow);
      [simpl; intuition discriminate|].
    destruct (negb (sentStep2 s) && sentStep1 s && negb (JS.includes e arrow))
      eqn:E; [|simpl; intuition discriminate].
    intros _. exists e.
    apply andb_prop in E. destruct E as [E E3].
    apply andb_prop in E. destruct E as [E2 E1].
    apply negb_true_iff in E2, E3. auto.
  - destruct (nth_error (timeouts s) n) as [[| |]|]; unfold fire, process_write;
      simpl.
    + destruct (sentStep1 s), (process s); simpl; try tauto.
      intros [H|[]]. injection H as H. contradiction.
    + destruct (sentStep2 s), (process s); simpl; try tauto.
      intros [H|[]]. injection H as H. contradiction.
    + intuition discriminate.
    + intros [].
  - unfold onTick. destruct (checkInterval s) as [[|]|]; simpl;
      intuition discriminate.
  - unfold onProbe, _cleanUp, process_kill.
    destruct (negb (String.eqb out EmptyString) && negb (isLaunched s));
      [simpl; intuition discriminate|].
    destruct ((String.eqb out EmptyString && isLaunched s
               || (JS.indexOf out "minute" >? -1)%Z) && negb (sentDone s));
      [|intros []].
    simpl. destruct (checkInterval s), (process s); simpl;
      intuition discriminate.
  - exfalso. apply (Hn text). reflexivity.
  - unfold stop, setTimeout, process_kill. destruct (process s); simpl;
      intuition discriminate.
  - unfold resize. destruct (process s); simpl; intuition discriminate.
Qed.

(** X4: the session itself writes the erase character only in answer to a
    chunk without the prompt marker that arrives while step1 is recorded
    as sent and step2 is not: never before step1, never once step2 is
    recorded, and so never while the user's program runs. *)
Theorem erase_only_in_window :
  forall (compilers : list (list string)) (c : Compiler) (s : Session)
         (tr : list Input) (i : Input),
    started compilers c s ->
    not_push i ->
    In (PtyWrite DEL) (snd (step (final s tr) i)) ->
    exists e,
      i = Data e
      /\ sentStep1 (final s tr) = true
      /\ sentStep2 (final s tr) = false
      /\ JS.includes e arrow = false.
Proof.
  intros compilers c s tr i Hs Hn.
  apply erase_only_between_steps; [|exact Hn].
  apply final_disciplined, (started_disciplined _ _ _ Hs).
Qed.

Lemma erase_only_in_window_witness :
  started sample_catalog gcc_compiler gcc_session
  /\ not_push (Data "ls")
  /\ In (PtyWrite DEL)
        (snd (step (final gcc_session [Data arrow; Timeout 0]) (Data "ls")))
  /\ exists e,
       Data "ls" = Data e
       /\ sentStep1 (final gcc_session [Data arrow; Timeout 0]) = true
       /\ sentStep2 (final gcc_session [Data arrow; Timeout 0]) = false
       /\ JS.includes e arrow = false.
Proof.
  assert (N : not_push (Data "ls")) by (intros text; discriminate).
  assert (W : In (PtyWrite DEL)
                (snd (step (final gcc_session [Data arrow; Timeout 0])
                           (Data "ls")))) by (right; left; reflexivity).
  split; [reflexivity|]. split; [exact N|]. split; [exact W|].
  exact (erase_only_in_window sample_catalog gcc_compiler gcc_session
           [Data arrow; Timeout 0] (Data "ls") eq_refl N W).
Defined.

Lemma step_single_command (s : Session) (i : Input) :
  sentStep2 s = true ->
  receivedFinalArrow s = false ->
  process s <> None ->
  not_push i ->
  ((if sentStep1 s then [step1 s] else []) ++ pty_writes (snd (step s i)))%list
  = (if sentStep1 (fst (step s i)) then [step1 s] else []).
Proof.
  intros E2 Hr Hw Hn.
  destruct (process s) as [pty|] eqn:Epty; [clear Hw|contradiction].
  destruct i; unfold step.
  - unfold onData, setTimeout, process_write. rewrite E2, Hr. simpl.
    rewrite andb_true_r.
    destruct (JS.includes e arrow && sentStep1 s); [apply app_nil_r|].
    destruct (negb (sentStep1 s) && String.eqb e arrow); apply app_nil_r.
  - destruct (nth_error (timeouts s) n) as [[| |]|]; unfold fire, process_write;
      simpl; rewrite ?Epty, ?E2; simpl.
    + destruct (sentStep1 s) eqn:E1; simpl; rewrite ?E1; reflexivity.
    + apply app_nil_r.
    + apply app_nil_r.
    + apply app_nil_r.
  - unfold onTick. destruct (checkInterval s) as [[|]|]; apply app_nil_r.
  - unfold onProbe, _cleanUp, process_kill.
    destruct (negb (String.eqb out EmptyString) && negb (isLaunched s));
      [apply app_nil_r|].
    destruct ((String.eqb out EmptyString && isLaunched s
               || (JS.indexOf out "minute" >? -1)%Z) && negb (sentDone s));
      [|apply app_nil_r].
    simpl. rewrite Epty. destruct (checkInterval s); apply app_nil_r.
  - exfalso. apply (Hn text). reflexivity.
  - unfold stop, setTimeout, process_kill. rewrite Epty. apply app_nil_r.
  - unfold resize. rewrite Epty. apply app_nil_r.
Qed.

Lemma run_single_command (s : Session) (tr : list Input) :
  sentStep2 s = true ->
  wired s ->
  no_push tr ->
  ((if sentStep1 s then [step1 s] else []) ++ pty_writes (effects s tr))%list
  = (if sentStep1 (final s tr) then [step1 s] else []).
Proof.
  revert s. induction tr as [|i tr IH]; intros s E2 Hw Hn; [apply app_nil_r|].
  inversion Hn as [|? ? Hi Htr]; subst.
  cbn [effects final]. rewrite pty_writes_app, app_assoc.
  destruct Hw as (Hp & Hc & Hr).
  rewrite (step_single_command s i E2 Hr Hp Hi).
  destruct (step_constants s i) as (E1 & _ & _). rewrite <- E1.
  apply IH; [apply step_flags_mono, E2 | apply step_wired; repeat split; auto
            | exact Htr].
Qed.

(** X5: for a language whose catalog entry has no second command (none,
    or an empty one), a session the caller does not [push] into writes
    nothing to the pty but step1, once: no second command and no erase
    character, whatever arrives. *)
Theorem single_command_language :
  forall (compilers : list (list string)) (c : Compiler) (s : Session)
         (runner : list string) (tr : list Input),
    lookup_runner compilers (langNum (opts c)) = Some runner ->
    JS.truthy_str (nth_error runner 1) = false ->
    started compilers c s ->
    no_push tr ->
    pty_writes (effects s tr)
    = (if sentStep1 (final s tr)
       then [JS.template (nth_error runner 0) ++ " " ++ mainFile (opts c) ++ CR]
       else []).
Proof.
  intros compilers c s runner tr Hr Hf Hs Hn.
  pose proof (started_session _ _ _ _ Hr Hs) as E.
  assert (E2 : sentStep2 s = true).
  { rewrite E; simpl. rewrite (make_step2_falsy _ _ Hf). reflexivity. }
  pose proof (run_single_command s tr E2 (proj2 (started_inv _ _ _ Hs)) Hn) as H.
  assert (E1 : sentStep1 s = false) by (rewrite E; reflexivity).
  assert (S1 : step1 s = JS.template (nth_error runner 0) ++ " "
                         ++ mainFile (opts c) ++ CR) by (rewrite E; reflexivity).
  rewrite E1, S1 in H. exact H.
Qed.

Lemma single_command_language_witness :
  lookup_runner sample_catalog (langNum (opts py_compiler)) = Some ["python3"]
  /\ JS.truthy_str (nth_error ["python3"] 1) = false
  /\ (exists s,
        started sample_catalog py_compiler s
        /\ no_push [Data arrow; Data arrow; Timeout 1; Data "x"; Timeout 0;
                    Data "hello"; Data ("bye" ++ arrow)]
        /\ pty_writes (effects s [Data arrow; Data arrow; Timeout 1; Data "x";
                                  Timeout 0; Data "hello"; Data ("bye" ++ arrow)])
           = ["python3 script.py" ++ CR]).
Proof.
  assert (N : no_push [Data arrow; Data arrow; Timeout 1; Data "x"; Timeout 0;
                       Data "hello"; Data ("bye" ++ arrow)]).
  { repeat constructor; intros text; discriminate. }
  split; [reflexivity|]. split; [reflexivity|].
  eexists. split; [reflexivity|]. split; [exact N|].
  exact (single_command_language sample_catalog py_compiler _ ["python3"] _
           eq_refl eq_refl eq_refl N).
Defined.

(** ** Removing the container *)

Lemma step_unstopped (s : Session) (i : Input) :
  unstopped s ->
  i <> Stop ->
  unstopped (fst (step s i))
  /\ (In (ExecCmd (docker_rm s)) (snd (step s i)) ->
      exists e,
        i = Data e /\ JS.includes e arrow = true
        /\ sentStep1 s = true /\ sentStep2 s = true).
Proof.
  unfold unstopped. intros Hu Hn.
  destruct i; unfold step.
  - unfold onData, setTimeout, process_write.
    destruct (JS.includes e arrow && sentStep1 s && sentStep2 s) eqn:E.
    { split; [exact Hu|]. intros _. exists e.
      apply andb_prop in E. destruct E as [E E2].
      apply andb_prop in E. destruct E as [E0 E1]. auto. }
    destruct (negb (sentStep1 s) && String.eqb e arrow).
    { simpl. split; [|try (intuition discriminate)].
      intros H. apply in_app_or in H. destruct H as [H|[H|[]]];
        [auto|discriminate]. }
    destruct (negb (sentStep2 s) && sentStep1 s && JS.includes e arrow).
    { simpl. split; [|try (intuition discriminate)].
      intros H. apply in_app_or in H. destruct H as [H|[H|[]]];
        [auto|discriminate]. }
    destruct ((negb (sentStep2 s) && sentStep1 s && negb (JS.includes e arrow))
              || receivedFinalArrow s), (process s);
      simpl; split; auto; try (intuition discriminate).
  - destruct (nth_error (timeouts s) n) as [t|] eqn:En;
      [|split; [exact Hu|intros []]].
    assert (Hin : In t (timeouts s)) by (eapply nth_error_In; eauto).
    assert (Hrm : ~ In RemoveContainer (remove_nth n (timeouts s)))
      by (intros H; apply Hu; eapply In_remove_nth; eauto).
    destruct t; [| |contradiction]; unfold fire, process_write; simpl.
    + destruct (sentStep1 s), (process s); simpl; split; auto;
        try (intuition discriminate).
    + destruct (sentStep2 s), (process s); simpl; split; auto;
        try (intuition discriminate).
  - unfold onTick, docker_rm. destruct (checkInterval s) as [[|]|]; simpl;
      split; auto; try (intuition discriminate).
  - unfold onProbe, _cleanUp, process_kill.
    destruct (negb (String.eqb out EmptyString) && negb (isLaunched s));
      [simpl; split; auto; try (intuition discriminate)|].
    destruct ((String.eqb out EmptyString && isLaunched s
               || (JS.indexOf out "minute" >? -1)%Z) && negb (sentDone s));
      [|simpl; split; [auto|intros []]].
    simpl. destruct (checkInterval s), (process s); simpl; split; auto;
      try (intuition discriminate).
  - unfold push, process_write. destruct (process s); simpl; split; auto;
      try (intuition discriminate).
  - contradiction.
  - unfold resize. destruct (process s); simpl; split; auto;
      try (intuition discriminate).
Qed.

Lemma run_unstopped (s : Session) (tr : list Input) :
  unstopped s ->
  no_stop tr ->
  In (ExecCmd (docker_rm s)) (effects s tr) ->
  exists tr1 e tr2,
    tr = (tr1 ++ Data e :: tr2)%list
    /\ JS.includes e arrow = true
    /\ sentStep1 (final s tr1) = true
    /\ sentStep2 (final s tr1) = true.
Proof.
  revert s. induction tr as [|i tr IH]; intros s Hu Hn Hin; [destruct Hin|].
  inversion Hn as [|? ? Hi Htr]; subst.
  destruct (step_unstopped s i Hu Hi) as [Hu' Hrm].
  cbn [effects] in Hin. apply in_app_or in Hin. destruct Hin as [Hin|Hin].
  - destruct (Hrm Hin) as (e & -> & He & E1 & E2).
    exists [], e, tr. auto.
  - assert (Ed : docker_rm (fst (step s i)) = docker_rm s).
    { unfold docker_rm. destruct (step_constants s i) as (_ & _ & ->).
      reflexivity. }
    rewrite <- Ed in Hin.
    destruct (IH _ Hu' Htr Hin) as (tr1 & e & tr2 & -> & He & E1 & E2).
    exists (i :: tr1), e, tr2. auto.
Qed.

(** X6: unless [stop()] is called, a session issues [docker rm -f] for its
    container only in answer to a chunk that contains the prompt marker and
    arrives with both steps recorded as sent: the container is never
    removed before the run command was written. *)
Theorem removal_only_after_both_steps :
  forall (compilers : list (list string)) (c : Compiler) (s : Session)
         (tr : list Input),
    started compilers c s ->
    no_stop tr ->
    In (ExecCmd ("docker rm -f " ++ containerName (opts c))) (effects s tr) ->
    exists tr1 e tr2,
      tr = (tr1 ++ Data e :: tr2)%list
      /\ JS.includes e arrow = true
      /\ sentStep1 (final s tr1) = true
      /\ sentStep2 (final s tr1) = true.
Proof.
  intros compilers c s tr Hs Hn Hin.
  assert (E : this s = c /\ timeouts s = []).
  { unfold started, exec in Hs.
    destruct (lookup_runner compilers (langNum (opts c))); [|discriminate].
    simpl in Hs. injection Hs as <-. split; reflexivity. }
  destruct E as [Ec Et].
  apply (run_unstopped s tr); [unfold unstopped; rewrite Et; intros [] | exact Hn |].
  unfold docker_rm. rewrite Ec. exact Hin.
Qed.

Lemma removal_only_after_both_steps_witness :
  started sample_catalog gcc_compiler gcc_session
  /\ no_stop [Data arrow; Timeout 0; Data arrow; Timeout 0; Data arrow]
  /\ In (ExecCmd ("docker rm -f " ++ containerName (opts gcc_compiler)))
        (effects gcc_session
           [Data arrow; Timeout 0; Data arrow; Timeout 0; Data arrow])
  /\ exists tr1 e tr2,
       [Data arrow; Timeout 0; Data arrow; Timeout 0; Data arrow]
       = (tr1 ++ Data e :: tr2)%list
       /\ JS.includes e arrow = true
       /\ sentStep1 (final gcc_session tr1) = true
       /\ sentStep2 (final gcc_session tr1) = true.
Proof.
  assert (N : no_stop [Data arrow; Timeout 0; Data arrow; Timeout 0; Data arrow])
    by (repeat constructor; discriminate).
  assert (W : In (ExecCmd ("docker rm -f " ++ containerName (opts gcc_compiler)))
                (effects gcc_session
                   [Data arrow; Timeout 0; Data arrow; Timeout 0; Data arrow])).
  { vm_compute. do 7 right. left. reflexivity. }
  split; [reflexivity|]. split; [exact N|]. split; [exact W|].
  exact (removal_only_after_both_steps sample_catalog gcc_compiler gcc_session
           _ eq_refl N W).
Defined.

(** ** The monitor, continued *)

Lemma started_monitored (compilers : list (list string)) (c : Compiler)
  (s : Session) :
  started compilers c s -> monitored s.
Proof.
  unfold started, exec. intros H.
  destruct (lookup_runner compilers (langNum (opts c))); [|discriminate].
  simpl in H. injection H as <-. split; [discriminate|reflexivity].
Qed.

Lemma includes_minute_nonempty (out : string) :
  (JS.indexOf out "minute" >? -1)%Z = true -> String.eqb out EmptyString = false.
Proof.
  destruct out; [discriminate|reflexivity].
Qed.

Lemma step_monitored (s : Session) (i : Input) :
  monitored s -> monitored (fst (step s i)).
Proof.
  unfold monitored. intros [Hd Hc].
  destruct i; unfold step.
  - unfold onData, setTimeout.
    destruct (JS.includes e arrow && sentStep1 s && sentStep2 s);
      [simpl; split; assumption|].
    destruct (negb (sentStep1 s) && String.eqb e arrow); [simpl; split; assumption|].
    destruct (negb (sentStep2 s) && sentStep1 s && JS.includes e arrow);
      [simpl; split; assumption|].
    destruct ((negb (sentStep2 s) && sentStep1 s && negb (JS.includes e arrow))
              || receivedFinalArrow s); simpl; split; assumption.
  - destruct (nth_error (timeouts s) n) as [[| |]|]; unfold fire; simpl.
    + destruct (sentStep1 s); simpl; split; assumption.
    + destruct (sentStep2 s); simpl; split; assumption.
    + simpl; split; assumption.
    + simpl; split; assumption.
  - unfold onTick. destruct (checkInterval s) as [[|]|] eqn:E; simpl;
      (split; [exact Hd | congruence]).
  - unfold onProbe, _cleanUp.
    destruct (negb (String.eqb out EmptyString) && negb (isLaunched s)) eqn:E0.
    { simpl. split; [reflexivity|exact Hc]. }
    destruct ((String.eqb out EmptyString && isLaunched s
               || (JS.indexOf out "minute" >? -1)%Z) && negb (sentDone s)) eqn:E;
      [|simpl; split; assumption].
    apply andb_prop in E. destruct E as [E Ed]. apply negb_true_iff in Ed.
    assert (L : isLaunched s = true).
    { destruct (isLaunched s); [reflexivity|].
      rewrite andb_true_r in E0. apply negb_false_iff in E0.
      rewrite E0 in E. simpl in E.
      apply String.eqb_eq in E0. subst out. discriminate. }
    simpl. rewrite Hc. simpl. split; [intros _; exact L | reflexivity].
  - simpl; split; assumption.
  - simpl; split; assumption.
  - unfold resize. destruct (process s); simpl; split; assumption.
Qed.

Lemma final_monitored (s : Session) (tr : list Input) :
  monitored s -> monitored (final s tr).
Proof.
  revert s. induction tr as [|i tr IH]; intros s H; simpl; [exact H|].
  apply IH, step_monitored, H.
Qed.

(** X7: the interval timer of a session keeps probing exactly until
    [done] has been emitted: before that it is never cleared (not by
    [stop()] either) and every turn starts a probe of the container name;
    from then on it is cleared for good and no turn starts a probe. *)
Theorem polling_until_done :
  forall (compilers : list (list string)) (c : Compiler) (s : Session)
         (tr : list Input),
    started compilers c s ->
    checkInterval (final s tr)
    = Some (if sentDone (final s tr) then Cleared else Ticking)
    /\ snd (step (final s tr) Tick)
       = (if sentDone (final s tr) then []
          else [ExecCmd ("docker ps | grep " ++ containerName (opts c))]).
Proof.
  intros compilers c s tr Hs.
  destruct (final_monitored s tr (started_monitored _ _ _ Hs)) as [_ Hc].
  split; [exact Hc|].
  assert (Ec : this (final s tr) = c).
  { destruct (final_constants s tr) as (_ & _ & ->).
    unfold started, exec in Hs.
    destruct (lookup_runner compilers (langNum (opts c))); [|discriminate].
    simpl in Hs. injection Hs as <-. reflexivity. }
  unfold step, onTick. rewrite Hc, Ec.
  destruct (sentDone (final s tr)); reflexivity.
Qed.

Lemma polling_until_done_witness :
  started sample_catalog gcc_compiler gcc_session
  /\ snd (step (final gcc_session [Tick; Probe "box"; Stop; Timeout 0]) Tick)
     = [ExecCmd "docker ps | grep box"]
  /\ snd (step (final gcc_session
                  [Tick; Probe "box"; Stop; Timeout 0; Tick; Probe ""; Data "x"])
               Tick) = [].
Proof.
  split; [reflexivity|]. split.
  - apply (polling_until_done sample_catalog gcc_compiler gcc_session
             [Tick; Probe "box"; Stop; Timeout 0] eq_refl).
  - apply (polling_until_done sample_catalog gcc_compiler gcc_session
             [Tick; Probe "box"; Stop; Timeout 0; Tick; Probe ""; Data "x"]
             eq_refl).
Defined.

(** X8: in every session and at every moment, [done] has been emitted at
    most as often as [launched]: a caller never receives [done] without
    having received [launched] before it. *)
Theorem done_needs_launched :
  forall (compilers : list (list string)) (c : Compiler) (s : Session)
         (tr : list Input),
    started compilers c s ->
    count_done (effects s tr) <= count_launched (effects s tr).
Proof.
  intros compilers c s tr Hs.
  pose proof (run_done_exact s tr) as D.
  pose proof (run_launched_exact s tr) as L.
  destruct (started_monitored _ _ _ Hs) as [_ Hc].
  destruct (final_monitored s tr (started_monitored _ _ _ Hs)) as [Hd _].
  assert (E : sentDone s = false /\ isLaunched s = false).
  { unfold started, exec in Hs.
    destruct (lookup_runner compilers (langNum (opts c))); [|discriminate].
    simpl in Hs. injection Hs as <-. split; reflexivity. }
  destruct E as [E1 E2]. rewrite E1 in D. rewrite E2 in L. simpl in D, L.
  destruct (sentDone (final s tr)).
  - rewrite (Hd eq_refl) in L. simpl in D, L. lia.
  - simpl in D. lia.
Qed.

Lemma done_needs_launched_witness :
  started sample_catalog gcc_compiler gcc_session
  /\ count_done (effects gcc_session
                   [Tick; Probe "box Up About a minute"; Tick;
                    Probe "box Up About a minute"])
     <= count_launched (effects gcc_session
                          [Tick; Probe "box Up About a minute"; Tick;
                           Probe "box Up About a minute"]).
Proof.
  split; [reflexivity|].
  apply (done_needs_launched sample_catalog gcc_compiler gcc_session _ eq_refl).
Defined.

(** X9: [done] is emitted by nothing but a probe callback, in a session
    already launched and not yet done, whose output is empty or contains
    "minute"; its [timedOut] field is true exactly when the output contains
    "minute".  A probe that lists the container without "minute" never
    ends the session. *)
Theorem done_only_on_exit_probe :
  forall (s : Session) (i : Input) (out : string) (timedOut : bool),
    In (Emit (Done out timedOut)) (snd (step s i)) ->
    exists probed,
      i = Probe probed
      /\ isLaunched s = true
      /\ sentDone s = false
      /\ (probed = EmptyString \/ JS.includes probed "minute" = true)
      /\ timedOut = JS.includes probed "minute".
Proof.
  intros s i out t.
  destruct i; unfold step.
  - unfold onData, setTimeout, process_write.
    destruct (JS.includes e arrow && sentStep1 s && sentStep2 s);
      [simpl; intuition discriminate|].
    destruct (negb (sentStep1 s) && String.eqb e arrow);
      [simpl; intuition discriminate|].
    destruct (negb (sentStep2 s) && sentStep1 s && JS.includes e arrow);
      [simpl; intuition discriminate|].
    destruct ((negb (sentStep2 s) && sentStep1 s && negb (JS.includes e arrow))
              || receivedFinalArrow s), (process s);
      simpl; intuition discriminate.
  - destruct (nth_error (timeouts s) n) as [[| |]|]; unfold fire, process_write;
      simpl.
    + destruct (sentStep1 s), (process s); simpl; intuition discriminate.
    + destruct (sentStep2 s), (process s); simpl; intuition discriminate.
    + intuition discriminate.
    + intros [].
  - unfold onTick. destruct (checkInterval s) as [[|]|]; simpl;
      intuition discriminate.
  - unfold onProbe, _cleanUp, process_kill. rewrite indexOf_includes.
    destruct (negb (String.eqb out0 EmptyString) && negb (isLaunched s)) eqn:E0;
      [simpl; intuition discriminate|].
    destruct ((String.eqb out0 EmptyString && isLaunched s
               || JS.includes out0 "minute") && negb (sentDone s)) eqn:E;
      [|intros []].
    intros H. exists out0.
    apply andb_prop in E. destruct E as [E Ed]. apply negb_true_iff in Ed.
    assert (T : t = JS.includes out0 "minute").
    { simpl in H. destruct (checkInterval s), (process s); simpl in H;
        repeat (destruct H as [H|H]); try discriminate; try contradiction;
        injection H as _ H; symmetry; exact H. }
    assert (L : isLaunched s = true).
    { destruct (isLaunched s); [reflexivity|].
      rewrite andb_true_r in E0. apply negb_false_iff in E0.
      rewrite E0 in E. simpl in E.
      apply String.eqb_eq in E0. subst out0. discriminate. }
    repeat split; auto.
    apply orb_prop in E. destruct E as [E|E]; [|right; exact E].
    left. apply andb_prop in E. destruct E as [E _].
    apply String.eqb_eq. exact E.
  - unfold push, process_write. destruct (process s); simpl;
      intuition discriminate.
  - unfold stop, setTimeout, process_kill. destruct (process s); simpl;
      intuition discriminate.
  - unfold resize. destruct (process s); simpl; intuition discriminate.
Qed.

Lemma done_only_on_exit_probe_witness :
  In (Emit (Done "" true))
     (snd (step (final gcc_session [Tick; Probe "box"])
                (Probe "box Up About a minute")))
  /\ exists probed,
       Probe "box Up About a minute" = Probe probed
       /\ isLaunched (final gcc_session [Tick; Probe "box"]) = true
       /\ sentDone (final gcc_session [Tick; Probe "box"]) = false
       /\ (probed = EmptyString \/ JS.includes probed "minute" = true)
       /\ true = JS.includes probed "minute".
Proof.
  assert (W : In (Emit (Done "" true))
                (snd (step (final gcc_session [Tick; Probe "box"])
                           (Probe "box Up About a minute"))))
    by (left; reflexivity).
  split; [exact W|].
  exact (done_only_on_exit_probe _ _ _ _ W).
Defined.

(** ** Construction and launch, continued *)

Lemma nonempty_string_str (v : JS.Value) :
  nonempty_string v = true -> v = JS.Str (str_of v).
Proof.
  destruct v; try discriminate. reflexivity.
Qed.

Lemma good_langNum_number (v : JS.Value) :
  bad_langNum v = false -> v = JS.Number (num_of v).
Proof.
  destruct v; try discriminate. reflexivity.
Qed.

(** X10: the constructor returns an object exactly when [langNum] is a
    number other than NaN (negative, fractional and infinite numbers pass)
    and [mainFile], [pathToFiles] and [containerName] are non-empty
    strings.  The object holds the four values and the folder name as they
    were given, and [this.folderName] is the folder name given, or "code"
    when it is missing or empty. *)
Theorem constructor_accepts :
  forall o : RawOptions,
    ((exists c, snd (constructor o) = inr c) <->
     (bad_langNum (raw_langNum o) = false
      /\ nonempty_string (raw_mainFile o) = true
      /\ nonempty_string (raw_pathToFiles o) = true
      /\ nonempty_string (raw_containerName o) = true))
    /\ (forall c,
          snd (constructor o) = inr c ->
          raw_langNum o = JS.Number (langNum (opts c))
          /\ raw_mainFile o = JS.Str (mainFile (opts c))
          /\ raw_pathToFiles o = JS.Str (pathToFiles (opts c))
          /\ raw_containerName o = JS.Str (containerName (opts c))
          /\ folderName (opts c) = raw_folderName o
          /\ this_folderName c
             = match raw_folderName o with
               | Some (String a f) => String a f
               | _ => "code"
               end).
Proof.
  intros o. unfold constructor.
  rewrite not_a_number_spec, !not_a_string_spec.
  destruct (bad_langNum (raw_langNum o)) eqn:EN; simpl.
  { split; [split|]; [intros [c H]; discriminate | intros [H _]; discriminate
                     | intros c H; discriminate]. }
  destruct (nonempty_string (raw_mainFile o)) eqn:EM; simpl.
  2:{ split; [split|]; [intros [c H]; discriminate
                       | intros (_ & H & _); discriminate
                       | intros c H; discriminate]. }
  destruct (nonempty_string (raw_pathToFiles o)) eqn:EP; simpl.
  2:{ split; [split|]; [intros [c H]; discriminate
                       | intros (_ & _ & H & _); discriminate
                       | intros c H; discriminate]. }
  destruct (nonempty_string (raw_containerName o)) eqn:EC; simpl.
  2:{ split; [split|]; [intros [c H]; discriminate
                       | intros (_ & _ & _ & H); discriminate
                       | intros c H; discriminate]. }
  split; [split; [auto | intros _; eexists; reflexivity]|].
  intros c H. injection H as <-. simpl.
  repeat split; auto using nonempty_string_str, good_langNum_number.
  destruct (raw_folderName o) as [[|a f]|]; reflexivity.
Qed.

Lemma constructor_accepts_witness :
  (exists c, snd (constructor minus_one_raw) = inr c)
  /\ (forall c,
        snd (constructor minus_one_raw) = inr c ->
        raw_langNum minus_one_raw = JS.Number (langNum (opts c))
        /\ raw_mainFile minus_one_raw = JS.Str (mainFile (opts c))
        /\ raw_pathToFiles minus_one_raw = JS.Str (pathToFiles (opts c))
        /\ raw_containerName minus_one_raw = JS.Str (containerName (opts c))
        /\ folderName (opts c) = raw_folderName minus_one_raw
        /\ this_folderName c = "code").
Proof.
  split.
  - apply (proj1 (constructor_accepts minus_one_raw)). repeat split.
  - apply (proj2 (constructor_accepts minus_one_raw)).
Defined.




(** ** The main file name and the step2 template *)

Lemma prefix_nil (s : string) : String.prefix EmptyString s = true.
Proof. destruct s; reflexivity. Qed.

Lemma includes_single_cons (x ch : ascii) (s : string) :
  JS.includes (String x s) (String ch EmptyString)
  = if Ascii.eqb x ch then true else JS.includes s (String ch EmptyString).
Proof.
  cbn [JS.includes String.prefix].
  destruct (ascii_dec ch x) as [->|N].
  - rewrite prefix_nil, Ascii.eqb_refl. reflexivity.
  - destruct (Ascii.eqb x ch) eqn:E; [|reflexivity].
    apply Ascii.eqb_eq in E. congruence.
Qed.

Lemma split_nonempty (ch : ascii) (s : string) : JS.split ch s <> [].
Proof.
  destruct s as [|a s]; simpl; [discriminate|].
  destruct (Ascii.eqb a ch); [discriminate|].
  destruct (JS.split ch s); discriminate.
Qed.

Lemma split_without (ch : ascii) (s : string) :
  JS.includes s (String ch EmptyString) = false -> JS.split ch s = [s].
Proof.
  induction s as [|a s IH]; intros H; [reflexivity|].
  rewrite includes_single_cons in H. cbn [JS.split].
  destruct (Ascii.eqb a ch); [discriminate|].
  rewrite (IH H). reflexivity.
Qed.

Lemma split_app_last (ch : ascii) (b e : string) :
  JS.includes e (String ch EmptyString) = false ->
  JS.split ch (b ++ String ch e) = (JS.split ch b ++ [e])%list.
Proof.
  intros He. induction b as [|a b IH].
  - cbn [append JS.split]. rewrite Ascii.eqb_refl, (split_without _ _ He).
    reflexivity.
  - cbn [append JS.split]. destruct (Ascii.eqb a ch).
    + rewrite IH. reflexivity.
    + rewrite IH. destruct (JS.split ch b) as [|h t] eqn:E.
      * exfalso. apply (split_nonempty ch b E).
      * reflexivity.
Qed.

Lemma join_split (ch : ascii) (s : string) :
  JS.join (String ch EmptyString) (JS.split ch s) = s.
Proof.
  unfold JS.join. induction s as [|a s IH]; [reflexivity|].
  cbn [JS.split]. destruct (Ascii.eqb a ch) eqn:E.
  - apply Ascii.eqb_eq in E. subst a.
    destruct (JS.split ch s) as [|h t] eqn:Es.
    + exfalso. apply (split_nonempty ch s Es).
    + change (String.concat (String ch EmptyString) (EmptyString :: h :: t))
        with (String ch (String.concat (String ch EmptyString) (h :: t))).
      rewrite IH. reflexivity.
  - destruct (JS.split ch s) as [|h t] eqn:Es.
    + exfalso. apply (split_nonempty ch s Es).
    + destruct t as [|h' t].
      * simpl in IH. subst h. reflexivity.
      * change (String.concat (String ch EmptyString) (String a h :: h' :: t))
          with (String a (String.concat (String ch EmptyString) (h :: h' :: t))).
        rewrite IH. reflexivity.
Qed.

Lemma fileWithoutExt_base (base ext : string) :
  JS.includes ext "." = false -> fileWithoutExt (base ++ "." ++ ext) = base.
Proof.
  intros He. unfold fileWithoutExt, JS.pop.
  change ("." ++ ext) with (String "." ext).
  rewrite (split_app_last "." base ext He), removelast_last.
  apply (join_split ".").
Qed.

(** X12: the name used for the step2 placeholder is the main file name up
    to its last dot: for [base.ext] with a dot-free [ext] it is [base],
    whatever dots [base] contains; for a name without any dot it is the
    empty string, not the name. *)
Theorem fileWithoutExt_last_dot :
  forall base ext : string,
    JS.includes ext "." = false ->
    fileWithoutExt (base ++ "." ++ ext) = base
    /\ fileWithoutExt ext = EmptyString.
Proof.
  intros base ext He. split.
  - apply fileWithoutExt_base, He.
  - unfold fileWithoutExt, JS.pop.
    rewrite (split_without "." ext He). reflexivity.
Qed.

Lemma fileWithoutExt_last_dot_witness :
  JS.includes "gz" "." = false
  /\ fileWithoutExt ("archive.tar" ++ "." ++ "gz") = "archive.tar"
  /\ fileWithoutExt "gz" = EmptyString.
Proof.
  split; [reflexivity|].
  apply (fileWithoutExt_last_dot "archive.tar" "gz"). reflexivity.
Defined.

Lemma GetSubstitution_plain (matched before after r : string) :
  JS.includes r "$" = false ->
  JS.GetSubstitution matched before after r = r.
Proof.
  induction r as [|a r IH]; intros H; [reflexivity|].
  rewrite includes_single_cons in H. cbn [JS.GetSubstitution].
  destruct (Ascii.eqb a "$"); [discriminate|].
  rewrite (IH H). reflexivity.
Qed.

Lemma prefix_app (p s : string) : String.prefix p (p ++ s) = true.
Proof.
  induction p as [|a p IH]; [apply prefix_nil|].
  cbn [append String.prefix]. destruct (ascii_dec a a); [exact IH|congruence].
Qed.

Lemma indexOf_after_braceless (a tail : string) :
  JS.includes a "{" = false ->
  String.prefix "{}" tail = true ->
  JS.indexOf (a ++ tail) "{}" = Z.of_nat (String.length a).
Proof.
  intros H Ht. induction a as [|x a IH].
  - cbn [append String.length]. destruct tail; cbn [JS.indexOf]; rewrite Ht;
      reflexivity.
  - rewrite includes_single_cons in H.
    destruct (Ascii.eqb x "{") eqn:E; [discriminate|].
    cbn [append JS.indexOf String.prefix String.length].
    destruct (ascii_dec "{" x) as [<-|N]; [discriminate|].
    rewrite (IH H).
    destruct (Z.of_nat (String.length a) <? 0)%Z eqn:L.
    + apply Z.ltb_lt in L. lia.
    + lia.
Qed.

Lemma substring_app (a t : string) :
  String.substring 0 (String.length a) (a ++ t) = a.
Proof.
  induction a as [|x a IH]; [destruct t; reflexivity|].
  cbn [append String.length String.substring]. rewrite IH. reflexivity.
Qed.

Lemma drop_app (a t : string) (n : nat) :
  JS.drop (String.length a + n) (a ++ t) = JS.drop n t.
Proof.
  induction a as [|x a IH]; [reflexivity|].
  cbn [append String.length Nat.add JS.drop]. exact IH.
Qed.

Lemma replace_placeholder (a t name : string) :
  JS.includes a "{" = false ->
  JS.includes name "$" = false ->
  JS.replace (a ++ "{}" ++ t) "{}" name = a ++ name ++ t.
Proof.
  intros Ha Hn. unfold JS.replace.
  rewrite (indexOf_after_braceless a ("{}" ++ t) Ha (prefix_app "{}" t)).
  assert (L : (Z.of_nat (String.length a) <? 0)%Z = false)
    by (apply Z.ltb_ge; lia).
  rewrite L, Nat2Z.id, substring_app, (GetSubstitution_plain _ _ _ _ Hn).
  change (String.length "{}") with 2.
  rewrite (drop_app a ("{}" ++ t) 2). reflexivity.
Qed.



(** X14: the step2 command of a session, for a catalog entry whose second
    template is [a{}t] with no brace in [a], and a main file [base.ext]
    with no dot in [ext] and no dollar sign in [base], is [a base t]
    followed by a carriage return; step1 is the first template, a space,
    the whole main file name and a carriage return. *)
Theorem session_commands :
  forall (compilers : list (list string)) (c : Compiler) (s : Session)
         (first a t base ext : string) (more : list string),
    lookup_runner compilers (langNum (opts c))
      = Some (first :: (a ++ "{}" ++ t) :: more) ->
    mainFile (opts c) = base ++ "." ++ ext ->
    JS.includes a "{" = false ->
    JS.includes ext "." = false ->
    JS.includes base "$" = false ->
    started compilers c s ->
    step1 s = first ++ " " ++ (base ++ "." ++ ext) ++ CR
    /\ step2 s = (a ++ base ++ t) ++ CR
    /\ sentStep2 s = false.
Proof.
  intros compilers c s first a t base ext more Hr Hm Ha He Hb Hs.
  rewrite (started_session _ _ _ _ Hr Hs). cbn [step1 step2 sentStep2].
  unfold make_step1, make_step2. cbn [nth_error JS.template]. rewrite Hm.
  assert (T : JS.truthy_str (Some (a ++ "{}" ++ t)) = true)
    by (destruct a; reflexivity).
  rewrite T, (fileWithoutExt_base base ext He).
  rewrite (replace_placeholder a t base Ha Hb).
  repeat split.
  destruct (a ++ base ++ t); reflexivity.
Qed.

Lemma session_commands_witness :
  lookup_runner sample_catalog (langNum (opts gcc_compiler))
  = Some ("gcc main.c -o main" :: ("./" ++ "{}" ++ "") :: [])
  /\ mainFile (opts gcc_compiler) = "main" ++ "." ++ "c"
  /\ started sample_catalog gcc_compiler gcc_session
  /\ step1 gcc_session = "gcc main.c -o main" ++ " " ++ ("main" ++ "." ++ "c") ++ CR
  /\ step2 gcc_session = ("./" ++ "main" ++ "") ++ CR
  /\ sentStep2 gcc_session = false.
Proof.
  split; [reflexivity|]. split; [reflexivity|]. split; [reflexivity|].
  apply (session_commands sample_catalog gcc_compiler gcc_session
           "gcc main.c -o main" "./" "" "main" "c" []); reflexivity.
Defined.

Lemma onData_prompt (s : Session) (e : string) :
  JS.includes e arrow = true ->
  sentStep1 s = true ->
  onData s e
  = if sentStep2 s
    then (s, [Emit (Inc e); ExecCmd (docker_rm s)])
    else (with_timeouts s (timeouts s ++ [SendStep2]),
          [Emit (Inc e); SetTimeout SendStep2 100]).
Proof.
  intros He E1. unfold onData, setTimeout. rewrite He, E1. simpl.
  destruct (sentStep2 s); reflexivity.
Qed.

(** X15: the plain run of a session, for every catalog entry and main file.
    The first prompt arms a timer that writes step1.  With a second
    template, the next chunk containing the marker arms the timer that
    writes step2, and the marker chunk after that issues the removal of the
    container; without one, it is already the chunk after step1 that
    issues the removal. *)
Theorem prompts_drive_the_steps :
  forall (compilers : list (list string)) (c : Compiler) (s : Session)
         (runner : list string) (e2 e3 : string),
    lookup_runner compilers (langNum (opts c)) = Some runner ->
    started compilers c s ->
    JS.includes e2 arrow = true ->
    JS.includes e3 arrow = true ->
    pty_writes (effects s [Data arrow]) = []
    /\ pty_writes (effects s [Data arrow; Timeout 0]) = [step1 s]
    /\ (JS.truthy_str (nth_error runner 1) = true ->
        pty_writes (effects s [Data arrow; Timeout 0; Data e2]) = [step1 s]
        /\ pty_writes (effects s [Data arrow; Timeout 0; Data e2; Timeout 0])
           = [step1 s; step2 s]
        /\ snd (step (final s [Data arrow; Timeout 0; Data e2; Timeout 0])
                     (Data e3))
           = [Emit (Inc e3);
              ExecCmd ("docker rm -f " ++ containerName (opts c))])
    /\ (JS.truthy_str (nth_error runner 1) = false ->
        snd (step (final s [Data arrow; Timeout 0]) (Data e2))
        = [Emit (Inc e2);
           ExecCmd ("docker rm -f " ++ containerName (opts c))]).
Proof.
  intros compilers c s runner e2 e3 Hr Hs He2 He3.
  rewrite (started_session _ _ _ _ Hr Hs). clear Hs.
  set (c1 := make_step1 runner (mainFile (opts c))).
  set (c2 := make_step2 runner (mainFile (opts c))).
  set (b2 := String.eqb c2 EmptyString).
  set (s0 := {| this := c; sentStep1 := false |}).
  set (s1 := {| this := c;
                process := Some {| pty_cols := 32; pty_rows := 200 |};
                checkInterval := Some Ticking;
                step1 := c1; step2 := c2;
                sentStep1 := true; sentStep2 := b2;
                receivedFinalArrow := false;
                isLaunched := false; sentDone := false; timeouts := [] |}).
  assert (F01 : final s0 [Data arrow; Timeout 0] = s1) by reflexivity.
  assert (E01 : pty_writes (effects s0 [Data arrow; Timeout 0]) = [c1])
    by reflexivity.
  split; [reflexivity|]. split; [exact E01|]. split.
  - intros T.
    assert (B : b2 = false).
    { unfold b2, c2. apply String.eqb_neq, make_step2_truthy, T. }
    assert (Hd : onData s1 e2
                 = (with_timeouts s1 [SendStep2],
                    [Emit (Inc e2); SetTimeout SendStep2 100])).
    { rewrite (onData_prompt s1 e2 He2 eq_refl). cbn [sentStep2 s1].
      rewrite B. reflexivity. }
    split; [|split].
    + change [Data arrow; Timeout 0; Data e2]
        with ([Data arrow; Timeout 0] ++ [Data e2])%list.
      rewrite effects_app, pty_writes_app, E01, F01.
      cbn [effects step]. rewrite Hd. reflexivity.
    + change [Data arrow; Timeout 0; Data e2; Timeout 0]
        with ([Data arrow; Timeout 0] ++ [Data e2; Timeout 0])%list.
      rewrite effects_app, pty_writes_app, E01, F01.
      cbn [effects step]. rewrite Hd. cbn. rewrite B. reflexivity.
    + change [Data arrow; Timeout 0; Data e2; Timeout 0]
        with ([Data arrow; Timeout 0] ++ [Data e2; Timeout 0])%list.
      rewrite final_app, F01. cbn [final step]. rewrite Hd.
      cbn. rewrite B. cbn.
      rewrite onData_prompt by (assumption || reflexivity). reflexivity.
  - intros T.
    assert (B : b2 = true).
    { unfold b2, c2. rewrite (make_step2_falsy _ _ T). reflexivity. }
    rewrite F01. cbn [step]. rewrite (onData_prompt s1 e2 He2 eq_refl).
    cbn [sentStep2 s1]. rewrite B. reflexivity.
Qed.

Lemma prompts_drive_the_steps_witness :
  lookup_runner sample_catalog (langNum (opts py_compiler)) = Some ["python3"]
  /\ JS.includes ("3" ++ arrow) arrow = true
  /\ JS.truthy_str (nth_error ["python3"] 1) = false
  /\ exists s,
       started sample_catalog py_compiler s
       /\ snd (step (final s [Data arrow; Timeout 0]) (Data ("3" ++ arrow)))
          = [Emit (Inc ("3" ++ arrow));
             ExecCmd ("docker rm -f " ++ containerName (opts py_compiler))].
Proof.
  split; [reflexivity|]. split; [reflexivity|]. split; [reflexivity|].
  eexists. split; [reflexivity|].
  apply (prompts_drive_the_steps sample_catalog py_compiler _ ["python3"]
           ("3" ++ arrow) arrow); reflexivity.
Defined.

(** ** The calls of the caller and the teardown *)












